(** * Verification of the top-1k Clash snapshot pipeline

    Shallow embedding of
    - [src/clashdb/hash_utils.py]      (deck signature, deck hash, match hash)
    - [src/analysist/battle_filters.py] ([is_ranked_1v1_battle])
    - [src/analysist/deck_type.py]     (deck statistics and [classify_deck])
    - [scripts/etl_snapshot_top20.py]  (tag normalisation, card extraction,
                                        win determination, the scan loop of
                                        [main] and the player/card fan-out).

    Python text is modelled by Rocq [string]s read as code points below 256.
    [str.strip] follows CPython's white space table on that range;
    [str.upper] maps [a]..[z] to [A]..[Z] and leaves every other character
    alone, which is CPython's behaviour on ASCII (player tags are ASCII);
    the Latin-1 letters that CPython would also uppercase are outside the
    model.
    Python dicts (and [defaultdict]s) are association lists in insertion
    order: a lookup finds the key, an update rewrites the entry in place or
    appends a new one at the end, exactly as CPython's dict does. *)

From Stdlib Require Import String Ascii ZArith List Bool Lia QArith.
From Stdlib Require Import OrdersEx.
From stdpp Require Import base list sorting strings.
Import ListNotations.
Open Scope string_scope.

(* ================================================================== *)
(** ** Text helpers: code points, [str.upper], [str.strip], [str(int)] *)

Definition code (c : ascii) : Z := Z.of_N (N_of_ascii c).
Definition chr (z : Z) : ascii := ascii_of_N (Z.to_N z).

Fixpoint str_map (f : ascii -> ascii) (s : string) : string :=
  match s with
  | EmptyString => EmptyString
  | String c s' => String (f c) (str_map f s')
  end.

(** [str.upper] on one character ([a]..[z] to [A]..[Z]). *)
Definition char_upper (c : ascii) : ascii :=
  let n := code c in
  if (97 <=? n)%Z && (n <=? 122)%Z then chr (n - 32) else c.

Definition py_upper (s : string) : string := str_map char_upper s.

(** [str.isspace] on one character: [\t \n \v \f \r], the separators
    [\x1c]..[\x1f], space, [\x85] and the no-break space [\xa0]. *)
Definition char_isspace (c : ascii) : bool :=
  let n := code c in
  ((9 <=? n)%Z && (n <=? 13)%Z) || ((28 <=? n)%Z && (n <=? 32)%Z)
  || (n =? 133)%Z || (n =? 160)%Z.

Fixpoint lstrip (s : string) : string :=
  match s with
  | EmptyString => EmptyString
  | String c s' => if char_isspace c then lstrip s' else s
  end.

Fixpoint str_rev_app (s acc : string) : string :=
  match s with
  | EmptyString => acc
  | String c s' => str_rev_app s' (String c acc)
  end.

Definition str_rev (s : string) : string := str_rev_app s EmptyString.

Definition rstrip (s : string) : string := str_rev (lstrip (str_rev s)).

(** [str.strip()] *)
Definition py_strip (s : string) : string := rstrip (lstrip s).

Definition py_startswith_hash (s : string) : bool :=
  match s with
  | String c _ => Ascii.eqb c "#"%char
  | EmptyString => false
  end.

Definition digit_char (d : Z) : ascii := chr (48 + d).

Fixpoint digits_aux (fuel : nat) (n : Z) (acc : string) : string :=
  match fuel with
  | O => String (digit_char n) acc
  | S f =>
      if (n <? 10)%Z then String (digit_char n) acc
      else digits_aux f (n / 10) (String (digit_char (n mod 10)) acc)
  end.

(** [str(n)] for a Python [int]. *)
Definition py_str_int (n : Z) : string :=
  let m := Z.abs n in
  let body := digits_aux (Pos.size_nat (Z.to_pos (m + 1))) m EmptyString in
  if (n <? 0)%Z then String "-" body else body.

(* ================================================================== *)
(** ** [hashlib.sha1(...).hexdigest()] *)

Module SHA1.

Definition mask32 : Z := 4294967295.
Definition add32 (a b : Z) : Z := Z.land (a + b) mask32.
Definition rotl (n x : Z) : Z :=
  Z.land (Z.lor (Z.shiftl x n) (Z.shiftr x (32 - n))) mask32.

(** The UTF-8 encoding of a text whose code points are below 128;
    the texts hashed by the program (JSON with [ensure_ascii], deck
    signatures of digits and variant names) are all of that kind. *)
Definition encode (s : string) : list Z := map code (list_ascii_of_string s).

Definition be_bytes (n : nat) (x : Z) : list Z :=
  map (fun i => Z.land (Z.shiftr x (8 * Z.of_nat (n - 1 - i))) 255) (seq 0 n).

Definition pad (msg : list Z) : list Z :=
  let len := Z.of_nat (length msg) in
  msg ++ [128%Z] ++ repeat 0%Z (Z.to_nat ((55 - len) mod 64)) ++ be_bytes 8 (8 * len).

Fixpoint chunks (fuel : nat) (l : list Z) : list (list Z) :=
  match fuel with
  | O => []
  | S f => match l with [] => [] | _ => firstn 64 l :: chunks f (skipn 64 l) end
  end.

Fixpoint words (fuel : nat) (l : list Z) : list Z :=
  match fuel with
  | O => []
  | S f =>
      match l with
      | b0 :: b1 :: b2 :: b3 :: rest =>
          Z.lor (Z.shiftl b0 24) (Z.lor (Z.shiftl b1 16) (Z.lor (Z.shiftl b2 8) b3))
          :: words f rest
      | _ => []
      end
  end.

Fixpoint schedule (n : nat) (w : list Z) : list Z :=
  match n with
  | O => w
  | S n' =>
      let t := length w in
      let x := rotl 1 (Z.lxor (nth (t - 3) w 0%Z)
                 (Z.lxor (nth (t - 8) w 0%Z)
                   (Z.lxor (nth (t - 14) w 0%Z) (nth (t - 16) w 0%Z)))) in
      schedule n' (w ++ [x])
  end.

Definition round_fk (t : nat) (b c d : Z) : Z * Z :=
  if (t <? 20)%nat then
    (Z.lor (Z.land b c) (Z.land (Z.lxor b mask32) d), 1518500249%Z)
  else if (t <? 40)%nat then (Z.lxor b (Z.lxor c d), 1859775393%Z)
  else if (t <? 60)%nat then
    (Z.lor (Z.lor (Z.land b c) (Z.land b d)) (Z.land c d), 2400959708%Z)
  else (Z.lxor b (Z.lxor c d), 3395469782%Z).

Definition state := (Z * Z * Z * Z * Z)%type.

Definition round (w : list Z) (st : state) (t : nat) : state :=
  let '(a, b, c, d, e) := st in
  let '(f, k) := round_fk t b c d in
  let temp := add32 (add32 (add32 (add32 (rotl 5 a) f) e) k) (nth t w 0%Z) in
  (temp, a, rotl 30 b, c, d).

Definition compress (h : state) (block : list Z) : state :=
  let w := schedule 64 (words 16 block) in
  let '(a, b, c, d, e) := fold_left (round w) (seq 0 80) h in
  let '(h0, h1, h2, h3, h4) := h in
  (add32 h0 a, add32 h1 b, add32 h2 c, add32 h3 d, add32 h4 e).

Definition h_init : state :=
  (1732584193, 4023233417, 2562383102, 271733878, 3285377520)%Z.

Definition hex_digit (d : Z) : ascii :=
  if (d <? 10)%Z then chr (48 + d) else chr (87 + d).

Definition hex_word (x : Z) : string :=
  string_of_list_ascii
    (map (fun i => hex_digit (Z.land (Z.shiftr x (4 * Z.of_nat (7 - i))) 15)) (seq 0 8)).

Definition digest (msg : list Z) : string :=
  let p := pad msg in
  let '(h0, h1, h2, h3, h4) := fold_left compress (chunks (length p) p) h_init in
  hex_word h0 ++ hex_word h1 ++ hex_word h2 ++ hex_word h3 ++ hex_word h4.

End SHA1.

(** [hashlib.sha1(s.encode("utf-8")).hexdigest()] *)
Definition sha1_hex (s : string) : string := SHA1.digest (SHA1.encode s).

(* ================================================================== *)
(** ** Python's [list.sort(key=...)]: a stable sort

    [sort_by le l] is a stable insertion sort: an element is placed before
    the first later element whose key is strictly greater, so elements with
    equal keys keep their input order, as in CPython's sort. *)

Section StableSort.
Context {A : Type} (le : A -> A -> bool).

Fixpoint insert_sorted (x : A) (l : list A) : list A :=
  match l with
  | [] => [x]
  | y :: l' => if le x y then x :: y :: l' else y :: insert_sorted x l'
  end.

Fixpoint sort_by (l : list A) : list A :=
  match l with
  | [] => []
  | x :: l' => insert_sorted x (sort_by l')
  end.

End StableSort.

(** Python's [str] ordering: lexicographic on code points. *)
Definition str_cmp : string -> string -> comparison := String_as_OT.compare.
Definition str_le (a b : string) : bool :=
  match str_cmp a b with Gt => false | _ => true end.

Fixpoint join (sep : string) (l : list string) : string :=
  match l with
  | [] => EmptyString
  | [x] => x
  | x :: l' => x ++ sep ++ join sep l'
  end.

(* ================================================================== *)
(** ** Raw battle records (the JSON of a battle-log entry) *)

(** One element of a participant's [cards] list: a JSON object with
    optional [id], [name] and [evolutionLevel], or some other JSON value. *)
Inductive card_entry :=
| CardNotDict
| CardDict (id : option Z) (name : option string) (evolutionLevel : option Z).

Record participant := {
  p_tag : option string;
  p_crowns : option Z;
  p_cards : list card_entry
}.

Record battle := {
  b_battleTime : option string;
  b_gameMode_id : option Z;
  b_gameMode_name : option string;
  b_type : option string;
  b_team : list participant;
  b_opponent : list participant
}.

(** Python's [x or d] on an optional string / int. *)
Definition str_or (o : option string) (d : string) : string :=
  match o with
  | Some s => if String.eqb s EmptyString then d else s
  | None => d
  end.

Definition int_or0 (o : option Z) : Z :=
  match o with Some z => z | None => 0%Z end.

(* ================================================================== *)
(** ** [json.dumps(payload, sort_keys=True, separators=(",", ":"))] *)

Definition dq : string := String (ascii_of_nat 34) EmptyString.
Definition bs : string := String (ascii_of_nat 92) EmptyString.

Definition hex4 (n : Z) : string :=
  string_of_list_ascii
    (map (fun i => SHA1.hex_digit (Z.land (Z.shiftr n (4 * Z.of_nat (3 - i))) 15)) (seq 0 4)).

(** [ensure_ascii] escaping of one character. *)
Definition json_escape_char (c : ascii) : string :=
  let n := code c in
  if (n =? 34)%Z then bs ++ dq
  else if (n =? 92)%Z then bs ++ bs
  else if (n =? 10)%Z then bs ++ "n"
  else if (n =? 13)%Z then bs ++ "r"
  else if (n =? 9)%Z then bs ++ "t"
  else if (n =? 8)%Z then bs ++ "b"
  else if (n =? 12)%Z then bs ++ "f"
  else if (32 <=? n)%Z && (n <=? 126)%Z then String c EmptyString
  else bs ++ "u" ++ hex4 n.

Fixpoint json_escape (s : string) : string :=
  match s with
  | EmptyString => EmptyString
  | String c s' => json_escape_char c ++ json_escape s'
  end.

Definition json_str (s : string) : string := dq ++ json_escape s ++ dq.

Definition json_key (k : string) : string := json_str k ++ ":".

(* ================================================================== *)
(** ** [match_hash] (hash_utils.py) *)

(** The entry [{"tag": ..., "crowns": ...}] of [side_payload]. *)
Record side_entry := { se_tag : string; se_crowns : Z }.

Definition side_entry_of (p : participant) : side_entry :=
  {| se_tag := py_upper (str_or (p_tag p) EmptyString);
     se_crowns := int_or0 (p_crowns p) |}.

(** [out.sort(key=lambda x: x["tag"])] *)
Definition side_payload (side : list participant) : list side_entry :=
  sort_by (fun x y => str_le (se_tag x) (se_tag y)) (map side_entry_of side).

Definition json_side_entry (e : side_entry) : string :=
  "{" ++ json_key "crowns" ++ py_str_int (se_crowns e) ++ ","
      ++ json_key "tag" ++ json_str (se_tag e) ++ "}".

Definition json_side (l : list side_entry) : string :=
  "[" ++ join "," (map json_side_entry l) ++ "]".

(** [str(mode_id or mode_name or battle.get("type") or "")] *)
Definition mode_key (b : battle) : string :=
  match b_gameMode_id b with
  | Some z => if (z =? 0)%Z then str_or (b_gameMode_name b) (str_or (b_type b) EmptyString)
              else py_str_int z
  | None => str_or (b_gameMode_name b) (str_or (b_type b) EmptyString)
  end.

(** The serialised payload; [sort_keys] orders the keys
    [battleTime < mode < opponent < team] and [crowns < tag]. *)
Definition match_blob (b : battle) : string :=
  "{" ++ json_key "battleTime" ++ json_str (str_or (b_battleTime b) EmptyString)
  ++ "," ++ json_key "mode" ++ json_str (mode_key b)
  ++ "," ++ json_key "opponent" ++ json_side (side_payload (b_opponent b))
  ++ "," ++ json_key "team" ++ json_side (side_payload (b_team b)) ++ "}".

Definition match_hash (b : battle) : string := sha1_hex (match_blob b).

(* ================================================================== *)
(** ** [is_ranked_1v1_battle] (battle_filters.py) *)

Definition RANKED_MODE_ID_WHITELIST : list Z := [72000006%Z; 72000464%Z].

Definition is_ranked_1v1_battle (b : battle) : bool :=
  (length (b_team b) =? 1)%nat && (length (b_opponent b) =? 1)%nat
  && match b_gameMode_id b with
     | Some z => existsb (Z.eqb z) RANKED_MODE_ID_WHITELIST
     | None => false
     end.

(** Swapping the roles of the two sides, as the other participant's
    battle log records the same match. *)
Definition swap_sides (b : battle) : battle :=
  {| b_battleTime := b_battleTime b; b_gameMode_id := b_gameMode_id b;
     b_gameMode_name := b_gameMode_name b; b_type := b_type b;
     b_team := b_opponent b; b_opponent := b_team b |}.

(* ================================================================== *)
(** ** Card observations ([_extract_8_cards], etl_snapshot_top20.py) *)

(** [card_variant_from_evolution_level]; a value [int()] rejects is read
    as level 0 by the [except] branch, which [None] stands for. *)
Definition card_variant_from_evolution_level (lvl : option Z) : string :=
  let l := int_or0 lvl in
  if (l =? 1)%Z then "evo" else if (l =? 2)%Z then "hero" else "normal".

Record CardObs := {
  card_id : Z;
  card_name : string;
  card_variant : string;
  slot : nat
}.

(** [load_card_metadata()] as the raw [name] field of the row whose [id]
    is the given card id ([None] for a missing row). *)
Definition card_meta_by_id := Z -> option string.

(** [card_name_from_id] *)
Definition card_name_from_id (card_meta : card_meta_by_id) (cid : Z) : option string :=
  match card_meta cid with
  | Some nm => if String.eqb nm EmptyString then None else Some (py_strip nm)
  | None => None
  end.

(** The card identifier of an entry, as [c.get("id")] when the entry is a
    dict; an entry that is not a dict has none. *)
Definition entry_id (c : card_entry) : option Z :=
  match c with CardDict id _ _ => id | CardNotDict => None end.

(** The body of the [for idx, c in enumerate(cards[:8], start=1)] loop. *)
Fixpoint build_obs (card_meta : card_meta_by_id) (idx : nat) (cards : list card_entry)
  : option (list CardObs) :=
  match cards with
  | [] => Some []
  | CardNotDict :: _ => None
  | CardDict None _ _ :: _ => None
  | CardDict (Some cid) nm lvl :: rest =>
      let nm1 := py_strip (str_or nm EmptyString) in
      let nm2 := if String.eqb nm1 EmptyString
                 then match card_name_from_id card_meta cid with
                      | Some n => n | None => EmptyString end
                 else nm1 in
      let o := {| card_id := cid; card_name := nm2;
                  card_variant := card_variant_from_evolution_level lvl;
                  slot := idx |} in
      match build_obs card_meta (S idx) rest with
      | Some out => Some (o :: out)
      | None => None
      end
  end.

Definition obs_key (o : CardObs) : Z * string := (card_id o, card_variant o).

Definition pair_eq_dec : forall x y : Z * string, {x = y} + {x <> y} :=
  fun x y => decide (x = y).

(** [len({(x.card_id, x.card_variant) for x in out})] *)
Definition distinct_keys (out : list CardObs) : nat :=
  length (nodup pair_eq_dec (map obs_key out)).

Definition _extract_8_cards (card_meta : card_meta_by_id) (part : participant)
  : option (list CardObs) :=
  let cards := p_cards part in
  if (length cards <? 8)%nat then None
  else match build_obs card_meta 1 (firstn 8 cards) with
       | None => None
       | Some out => if (distinct_keys out =? 8)%nat then Some out else None
       end.

(* ================================================================== *)
(** ** Deck signature and deck hash (hash_utils.py) *)

(** [normalized.sort(key=lambda x: (x[0], x[1]))]: tuple order. *)
Definition key_cmp (x y : string * string) : comparison :=
  match str_cmp (fst x) (fst y) with
  | Eq => str_cmp (snd x) (snd y)
  | c => c
  end.

Definition key_le (x y : string * string) : bool :=
  match key_cmp x y with Gt => false | _ => true end.

Definition canonical_deck_signature (cards : list (string * string)) : string :=
  join "|" (map (fun '(cid, variant) => cid ++ ":" ++ variant) (sort_by key_le cards)).

Definition deck_hash_from_signature (sig : string) : string := sha1_hex sig.

(** [card_keys = [(str(c.card_id), c.card_variant) for c in card_obs]] *)
Definition card_keys (obs : list CardObs) : list (string * string) :=
  map (fun c => (py_str_int (card_id c), card_variant c)) obs.
(* ================================================================== *)
(** ** Deck statistics and [classify_deck] (deck_type.py) *)

(** A row of [card_metadata.json]; [cm_elixir] is [None] when the
    [elixir] field is absent or not a number (costs are whole numbers). *)
Record CardMeta := {
  cm_elixir : option Z;
  cm_is_bait_piece : bool;
  cm_is_bridge_spam_piece : bool;
  cm_is_big_tank : bool
}.

(** [_CARD_META_BY_NAME] *)
Definition card_meta_by_name := string -> option CardMeta.

(** The empty dict [{}] returned for an unknown name. *)
Definition no_meta : CardMeta :=
  {| cm_elixir := None; cm_is_bait_piece := false;
     cm_is_bridge_spam_piece := false; cm_is_big_tank := false |}.

Definition _get_card_meta (by_name : card_meta_by_name) (card_name : string) : CardMeta :=
  match by_name card_name with Some m => m | None => no_meta end.

Definition ARCHETYPE_SIEGE := "Siege".
Definition ARCHETYPE_BAIT := "Bait".
Definition ARCHETYPE_CYCLE := "Cycle".
Definition ARCHETYPE_BRIDGE_SPAM := "Bridge Spam".
Definition ARCHETYPE_BEATDOWN := "Beatdown".
Definition ARCHETYPE_HYBRID := "Hybrid".

Definition _SIEGE_XBOW : list string := ["X-Bow"].
Definition _SIEGE_MORTAR : list string := ["Mortar"].

Record DeckValues := {
  avg_elixir : Q;
  four_card_cycle_cost : Q;
  has_xbow : bool;
  has_mortar : bool;
  bait_pieces : nat;
  bridge_spam_count : nat;
  big_tank_count : nat
}.

Definition count_flag (f : CardMeta -> bool) (metas : list CardMeta) : nat :=
  length (List.filter f metas).

Definition sum_Z (l : list Z) : Z := fold_right Z.add 0%Z l.

(** [len(names_set & S) > 0] *)
Definition meets (cards S : list string) : bool :=
  existsb (fun c => existsb (String.eqb c) S) cards.

(** [[m["elixir"]] if isinstance(m.get("elixir"), (int, float)) else []] *)
Definition elixir_list (m : CardMeta) : list Z :=
  match cm_elixir m with Some e => [e] | None => [] end.

Definition _precompute_deck_values (by_name : card_meta_by_name) (cards : list string)
  : DeckValues :=
  let metas := map (_get_card_meta by_name) cards in
  let elixirs := flat_map elixir_list metas in
  let '(avg, four) :=
    match elixirs with
    | [] => (3 # 1, 12 # 1)
    | _ => (Qdiv (inject_Z (sum_Z elixirs)) (8 # 1),
            inject_Z (sum_Z (firstn 4 (sort_by Z.leb elixirs))))
    end in
  {| avg_elixir := avg;
     four_card_cycle_cost := four;
     has_xbow := meets cards _SIEGE_XBOW;
     has_mortar := meets cards _SIEGE_MORTAR;
     bait_pieces := count_flag cm_is_bait_piece metas;
     bridge_spam_count := count_flag cm_is_bridge_spam_piece metas;
     big_tank_count := count_flag cm_is_big_tank metas |}.

(** The rule cascade of [classify_deck] on the precomputed values [v]. *)
Definition classify_values (v : DeckValues) : string :=
  if has_xbow v then ARCHETYPE_SIEGE
  else if has_mortar v then ARCHETYPE_SIEGE
  else if (3 <=? bait_pieces v)%nat then ARCHETYPE_BAIT
  else if Qle_bool (four_card_cycle_cost v) (9 # 1) then ARCHETYPE_CYCLE
  else if (2 <=? bridge_spam_count v)%nat then ARCHETYPE_BRIDGE_SPAM
  else if (1 <=? big_tank_count v)%nat && Qle_bool (7 # 2) (avg_elixir v)
  then ARCHETYPE_BEATDOWN
  else ARCHETYPE_HYBRID.

Definition classify_deck (by_name : card_meta_by_name) (cards : list string) : string :=
  match cards with
  | [] => ARCHETYPE_HYBRID
  | _ => classify_values (_precompute_deck_values by_name cards)
  end.

(* ================================================================== *)
(** ** Tags and outcome (etl_snapshot_top20.py) *)

(** [_normalize_tag] *)
Definition _normalize_tag (tag : option string) : string :=
  let t := py_upper (py_strip (str_or tag EmptyString)) in
  if negb (String.eqb t EmptyString) && negb (py_startswith_hash t) then "#" ++ t else t.

(** [_participant_is_win_ranked_1v1] *)
Definition _participant_is_win_ranked_1v1 (b : battle) (participant_tag : string) : bool :=
  let participant_tag := _normalize_tag (Some participant_tag) in
  match b_team b, b_opponent b with
  | [t0], [o0] =>
      let team_tag := _normalize_tag (p_tag t0) in
      let opp_tag := _normalize_tag (p_tag o0) in
      let team_crowns := int_or0 (p_crowns t0) in
      let opp_crowns := int_or0 (p_crowns o0) in
      if String.eqb participant_tag team_tag then (opp_crowns <? team_crowns)%Z
      else if String.eqb participant_tag opp_tag then (team_crowns <? opp_crowns)%Z
      else false
  | _, _ => false
  end.

(** [names_for_classifier = [c.card_name for c in card_obs if c.card_name]] *)
Definition names_for_classifier (obs : list CardObs) : list string :=
  map card_name (List.filter (fun c => negb (String.eqb (card_name c) EmptyString)) obs).

(* ================================================================== *)
(** ** Python dicts and [defaultdict(lambda: {"uses": 0, "wins": 0})] *)

Section Dict.
Context {K V : Type} `{EqDecision K}.

Fixpoint dict_get (d : list (K * V)) (k : K) : option V :=
  match d with
  | [] => None
  | (k', v) :: d' => if decide (k = k') then Some v else dict_get d' k
  end.

(** [d[k] = v]: overwrite in place, or append a new entry. *)
Fixpoint dict_set (d : list (K * V)) (k : K) (v : V) : list (K * V) :=
  match d with
  | [] => [(k, v)]
  | (k', v') :: d' => if decide (k = k') then (k', v) :: d' else (k', v') :: dict_set d' k v
  end.

Definition dict_get_default (d : list (K * V)) (k : K) (dflt : V) : V :=
  match dict_get d k with Some v => v | None => dflt end.

End Dict.

Record counter := { uses : nat; wins : nat }.

Definition counter0 : counter := {| uses := 0; wins := 0 |}.

(** [d[k]["uses"] += du; d[k]["wins"] += dw] on a defaultdict. *)
Definition bump {K} `{EqDecision K} (d : list (K * counter)) (k : K) (du dw : nat)
  : list (K * counter) :=
  let c := dict_get_default d k counter0 in
  dict_set d k {| uses := uses c + du; wins := wins c + dw |}.

(* ================================================================== *)
(** ** The scan loop of [main] *)

(** The collaborators [main] reads: card metadata by id, the classifier's
    metadata by name, the override table and [get_player_battlelog]
    ([None] when it returns something that is not a list). *)
Record etl_env := {
  env_card_meta : card_meta_by_id;
  env_meta_by_name : card_meta_by_name;
  env_overrides : list (string * string);
  env_battlelog : string -> option (list battle)
}.

Record etl_state := {
  seen_matches : list string;
  scanned_entries : nat;
  deduped_matches : nat;
  cards_dim : list (Z * string);
  deck_hash_to_type : list (string * string);
  deck_hash_to_cards : list (string * list CardObs);
  player_decks_top : list ((string * string) * counter);
  meta_deck_types : list (string * counter);
  meta_type_deck_ids : list ((string * string) * counter);
  meta_type_cards : list ((string * Z * string) * counter)
}.

Definition etl_init : etl_state :=
  {| seen_matches := []; scanned_entries := 0; deduped_matches := 0;
     cards_dim := []; deck_hash_to_type := []; deck_hash_to_cards := [];
     player_decks_top := []; meta_deck_types := []; meta_type_deck_ids := [];
     meta_type_cards := [] |}.

Definition b2n (b : bool) : nat := if b then 1 else 0.

(** The deck type of [main]: [deck_type_overrides.get(dh) or classify_deck(...)]. *)
Definition resolve_type (env : etl_env) (dh : string) (obs : list CardObs) : string :=
  str_or (dict_get (env_overrides env) dh)
         (classify_deck (env_meta_by_name env) (names_for_classifier obs)).

(** [for c in card_obs: if c.card_name: cards_dim[c.card_id] = c.card_name] *)
Definition store_cards_dim (dim : list (Z * string)) (obs : list CardObs) : list (Z * string) :=
  fold_left (fun d c => if String.eqb (card_name c) EmptyString then d
                        else dict_set d (card_id c) (card_name c)) obs dim.

(** [for c in card_obs: meta_type_cards[(dtype, c.card_id, c.card_variant)] += ...] *)
Definition bump_cards (d : list ((string * Z * string) * counter)) (dtype : string)
  (obs : list CardObs) (du dw : nat) : list ((string * Z * string) * counter) :=
  fold_left (fun d c => bump d (dtype, card_id c, card_variant c) du dw) obs d.

(** The aggregation of one valid (deck, participant, match) triple:
    the body of [for part in (team[0], opp[0])] after extraction. *)
Definition aggregate (top_tags : list string) (tag dh dtype : string) (obs : list CardObs)
  (won : bool) (st : etl_state) : etl_state :=
  let new_deck := match dict_get (deck_hash_to_type st) dh with Some _ => false | None => true end in
  {| seen_matches := seen_matches st;
     scanned_entries := scanned_entries st;
     deduped_matches := deduped_matches st;
     cards_dim := store_cards_dim (cards_dim st) obs;
     deck_hash_to_type :=
       if new_deck then dict_set (deck_hash_to_type st) dh dtype else deck_hash_to_type st;
     deck_hash_to_cards :=
       if new_deck then dict_set (deck_hash_to_cards st) dh obs else deck_hash_to_cards st;
     player_decks_top :=
       if existsb (String.eqb tag) top_tags
       then bump (player_decks_top st) (tag, dh) 1 (b2n won)
       else player_decks_top st;
     meta_deck_types := bump (meta_deck_types st) dtype 1 (b2n won);
     meta_type_deck_ids := bump (meta_type_deck_ids st) (dtype, dh) 1 (b2n won);
     meta_type_cards := bump_cards (meta_type_cards st) dtype obs 1 (b2n won) |}.

Definition process_participant (env : etl_env) (top_tags : list string) (b : battle)
  (st : etl_state) (part : participant) : etl_state :=
  let tag := _normalize_tag (p_tag part) in
  if String.eqb tag EmptyString then st else
  match _extract_8_cards (env_card_meta env) part with
  | None => st
  | Some obs =>
      let dh := deck_hash_from_signature (canonical_deck_signature (card_keys obs)) in
      let dtype := resolve_type env dh obs in
      let won := _participant_is_win_ranked_1v1 b tag in
      aggregate top_tags tag dh dtype obs won st
  end.

(** Marking a match hash as seen: [seen_matches.add(mh); deduped_matches += 1]. *)
Definition mark_seen (mh : string) (st : etl_state) : etl_state :=
  {| seen_matches := mh :: seen_matches st;
     scanned_entries := scanned_entries st;
     deduped_matches := S (deduped_matches st);
     cards_dim := cards_dim st;
     deck_hash_to_type := deck_hash_to_type st;
     deck_hash_to_cards := deck_hash_to_cards st;
     player_decks_top := player_decks_top st;
     meta_deck_types := meta_deck_types st;
     meta_type_deck_ids := meta_type_deck_ids st;
     meta_type_cards := meta_type_cards st |}.

Definition process_battle (env : etl_env) (top_tags : list string)
  (st : etl_state) (b : battle) : etl_state :=
  if negb (is_ranked_1v1_battle b) then st else
  let mh := match_hash b in
  if existsb (String.eqb mh) (seen_matches st) then st else
  let st := mark_seen mh st in
  match b_team b, b_opponent b with
  | [t0], [o0] => fold_left (process_participant env top_tags b) [t0; o0] st
  | _, _ => st
  end.

Definition add_scanned (n : nat) (st : etl_state) : etl_state :=
  {| seen_matches := seen_matches st;
     scanned_entries := scanned_entries st + n;
     deduped_matches := deduped_matches st;
     cards_dim := cards_dim st;
     deck_hash_to_type := deck_hash_to_type st;
     deck_hash_to_cards := deck_hash_to_cards st;
     player_decks_top := player_decks_top st;
     meta_deck_types := meta_deck_types st;
     meta_type_deck_ids := meta_type_deck_ids st;
     meta_type_cards := meta_type_cards st |}.

Definition process_player (env : etl_env) (top_tags : list string)
  (st : etl_state) (ptag : string) : etl_state :=
  match env_battlelog env ptag with
  | None => st
  | Some battles => fold_left (process_battle env top_tags) battles (add_scanned (length battles) st)
  end.

(** [top_players]: the normalised, non-empty tags of the ranking, in order. *)
Definition top_player_tags (raw : list (option string)) : list string :=
  List.filter (fun t => negb (String.eqb t EmptyString)) (map _normalize_tag raw).

(** The scan phase of [main] over the fetched ranking. *)
Definition etl_scan (env : etl_env) (raw : list (option string)) : etl_state :=
  let top := top_player_tags raw in
  fold_left (process_player env top) top etl_init.

(** The second pass: [player_type_cards_top]. *)
Definition derive_player_type_cards (st : etl_state)
  : list ((string * string * Z * string) * counter) :=
  fold_left
    (fun acc (e : (string * string) * counter) =>
       let '((ptag, dh), rec) := e in
       let dtype := dict_get_default (deck_hash_to_type st) dh ARCHETYPE_HYBRID in
       fold_left (fun acc c => bump acc (ptag, dtype, card_id c, card_variant c) (uses rec) (wins rec))
                 (dict_get_default (deck_hash_to_cards st) dh []) acc)
    (player_decks_top st) [].

(* ================================================================== *)
(** ** Concrete records used by the examples below *)

Definition ex_deck_keys : list (string * string) :=
  [("26000015", "normal"); ("26000063", "evo"); ("26000015", "evo"); ("28000000", "normal");
   ("26000000", "hero"); ("26000010", "normal"); ("27000003", "normal"); ("26000021", "normal")].

Definition ex_cards (base : Z) : list card_entry :=
  map (fun i => CardDict (Some (base + Z.of_nat i)%Z) (Some ("Card" ++ py_str_int (Z.of_nat i))) None) (seq 0 8).
Definition ex_part (tag : string) (crowns base : Z) : participant :=
  {| p_tag := Some tag; p_crowns := Some crowns; p_cards := ex_cards base |}.
Definition ex_battle : battle :=
  {| b_battleTime := Some "20251001T120000.000Z"; b_gameMode_id := Some 72000006%Z;
     b_gameMode_name := Some "Ladder"; b_type := Some "PvP";
     b_team := [ex_part "#AAA" 3 26000000]; b_opponent := [ex_part "#BBB" 1 27000000] |}.
Definition ex_env : etl_env :=
  {| env_card_meta := fun _ => None;
     env_meta_by_name := fun _ => Some {| cm_elixir := Some 3%Z; cm_is_bait_piece := false;
                                         cm_is_bridge_spam_piece := false; cm_is_big_tank := false |};
     env_overrides := [];
     env_battlelog := fun t => if String.eqb t "#AAA" then Some [ex_battle]
                               else if String.eqb t "#BBB" then Some [swap_sides ex_battle] else None |}.

Definition mk_meta (e : Z) (bait bridge tank : bool) : option CardMeta :=
  Some {| cm_elixir := Some e; cm_is_bait_piece := bait;
          cm_is_bridge_spam_piece := bridge; cm_is_big_tank := tank |}.

(** A few rows of the classifier's card metadata. *)
Definition ex_meta_by_name : card_meta_by_name := fun n =>
  if String.eqb n "X-Bow" then mk_meta 6 false false false
  else if String.eqb n "Mortar" then mk_meta 4 false false false
  else if String.eqb n "Golem" then mk_meta 8 false false true
  else if String.eqb n "Goblin Barrel" then mk_meta 3 true false false
  else if String.eqb n "Princess" then mk_meta 3 true false false
  else if String.eqb n "Goblin Gang" then mk_meta 3 true false false
  else if String.eqb n "Ice Spirit" then mk_meta 1 false false false
  else if String.eqb n "Skeletons" then mk_meta 1 false false false
  else if String.eqb n "The Log" then mk_meta 2 false false false
  else if String.eqb n "Knight" then mk_meta 3 false false false
  else if String.eqb n "Tesla" then mk_meta 4 false false false
  else if String.eqb n "Lightning" then mk_meta 6 false false false
  else if String.eqb n "Elixir Collector" then mk_meta 6 false false false
  else if String.eqb n "Baby Dragon" then mk_meta 4 false false false
  else if String.eqb n "Night Witch" then mk_meta 4 false false false
  else None.

Definition ex_xbow_heavy_deck : list string :=
  ["X-Bow"; "Golem"; "Lightning"; "Elixir Collector"; "Baby Dragon"; "Night Witch";
   "Tesla"; "Knight"].

Definition ex_bait_cheap_deck : list string :=
  ["Goblin Barrel"; "Princess"; "Goblin Gang"; "Ice Spirit"; "Skeletons"; "The Log";
   "Knight"; "Tesla"].

Definition ex_unknown_deck : list string :=
  ["Card A"; "Card B"; "Card C"; "Card D"; "Card E"; "Card F"; "Card G"; "Card H"].

(** A participant whose fourth card carries no [name] and whose id is
    missing from the card metadata. *)
Definition ex_part_unnamed : participant :=
  {| p_tag := Some "#CCC"; p_crowns := Some 2%Z;
     p_cards := [CardDict (Some 26000000%Z) (Some "Knight") None;
                 CardDict (Some 26000001%Z) (Some "Tesla") (Some 1%Z);
                 CardDict (Some 26000002%Z) (Some "Ice Spirit") None;
                 CardDict (Some 26999999%Z) None None;
                 CardDict (Some 26000004%Z) (Some "Skeletons") None;
                 CardDict (Some 26000005%Z) (Some "The Log") None;
                 CardDict (Some 26000006%Z) (Some "Princess") None;
                 CardDict (Some 26000007%Z) (Some "Goblin Barrel") None] |}.

Definition ex_no_card_meta : card_meta_by_id := fun _ => None.

Definition ex_env_unnamed : etl_env :=
  {| env_card_meta := ex_no_card_meta; env_meta_by_name := ex_meta_by_name;
     env_overrides := []; env_battlelog := fun _ => None |}.

(** The observations extracted from [ex_part_unnamed]. *)
Definition ex_obs_unnamed : list CardObs :=
  match _extract_8_cards ex_no_card_meta ex_part_unnamed with Some o => o | None => [] end.

(* ================================================================== *)
(** ** Vocabulary of the statements below *)

Definition key_le_rel (x y : string * string) : Prop := key_le x y = true.

(** No leading white space. *)
Definition no_lead_ws (s : string) : Prop :=
  match s with String c _ => char_isspace c = false | EmptyString => True end.

(** A text without surrounding white space that [str.upper] leaves alone. *)
Definition clean_tag (t : string) : Prop :=
  no_lead_ws t /\ no_lead_ws (str_rev t) /\ py_upper t = t.

(** [rec["uses"]] ([w = false]) or [rec["wins"]] ([w = true]). *)
Definition sel (w : bool) (c : counter) : nat := if w then wins c else uses c.

(** The total of the [w] field over the entries of a counter dict whose key
    satisfies [P]. *)
Fixpoint sum_sel {K} (P : K -> bool) (w : bool) (d : list (K * counter)) : nat :=
  match d with
  | [] => 0
  | (k, c) :: d' => (if P k then sel w c else 0) + sum_sel P w d'
  end.

(** A player's per-card total for an archetype in [player_type_cards_top]. *)
Definition player_type_card_total (p t : string) (w : bool)
  (ptc : list ((string * string * Z * string) * counter)) : nat :=
  sum_sel (fun '(p', t', _, _) => String.eqb p' p && String.eqb t' t) w ptc.

(** A player's per-deck total in [player_decks_top] over the decks whose
    resolved archetype ([deck_hash_to_type.get(dh, "Hybrid")]) is [t]. *)
Definition player_type_deck_total (st : etl_state) (p t : string) (w : bool) : nat :=
  sum_sel (fun '(p', dh) => String.eqb p' p
                            && String.eqb (dict_get_default (deck_hash_to_type st) dh ARCHETYPE_HYBRID) t)
          w (player_decks_top st).

Definition counter_ok (c : counter) : Prop := (wins c <= uses c)%nat.

Definition counters_ok {K} (d : list (K * counter)) : Prop := Forall (fun e => counter_ok e.2) d.

(** [wins <= uses] in every aggregate counter of a scan state. *)
Definition all_counters_ok (st : etl_state) : Prop :=
  counters_ok (player_decks_top st) /\ counters_ok (meta_deck_types st) /\
  counters_ok (meta_type_deck_ids st) /\ counters_ok (meta_type_cards st).

(** The deck hash [main] computes for an extracted deck. *)
Definition deck_hash_of (obs : list CardObs) : string :=
  deck_hash_from_signature (canonical_deck_signature (card_keys obs)).

(** [part] is one side of the 1v1 battle [b] and [other] is the other side. *)
Definition sides_of (b : battle) (part other : participant) : Prop :=
  (b_team b = [part] /\ b_opponent b = [other]) \/ (b_team b = [other] /\ b_opponent b = [part]).

(** The [meta_type_cards] key of a card of a deck of type [dtype]. *)
Definition card_key (dtype : string) (c : CardObs) : string * Z * string :=
  (dtype, card_id c, card_variant c).

(** What the scan keeps about decks: [deck_hash_to_type] and
    [deck_hash_to_cards] have the same keys, every stored deck has 8 cards,
    and every deck of [player_decks_top] is stored. *)
Definition decks_stored (st : etl_state) : Prop :=
  (forall dh, dict_get (deck_hash_to_type st) dh = None <-> dict_get (deck_hash_to_cards st) dh = None) /\
  (forall dh os, dict_get (deck_hash_to_cards st) dh = Some os -> length os = 8%nat) /\
  (forall tag dh c, In ((tag, dh), c) (player_decks_top st) -> dict_get (deck_hash_to_cards st) dh <> None).

(** A counter after one aggregation step: one more use, [dw] more wins. *)
Definition incremented (before after : counter) (dw : nat) : Prop :=
  uses after = uses before + 1 /\ wins after = wins before + dw.

(** The cards [_extract_8_cards] returns for a participant of [ex_env]. *)
Definition ex_obs (p : participant) : list CardObs :=
  match _extract_8_cards (env_card_meta ex_env) p with Some o => o | None => [] end.

(* ================================================================== *)
(** ** [_compute_result], [normalize_battle], [filter_and_normalize_ranked_1v1]
       (battle_filters.py) *)

Definition _compute_result (team_crowns opp_crowns : Z) : string :=
  if (opp_crowns <? team_crowns)%Z then "win"
  else if (team_crowns <? opp_crowns)%Z then "loss"
  else "draw".

(** The result seen from the other side. *)
Definition flip_result (r : string) : string :=
  if String.eqb r "win" then "loss" else if String.eqb r "loss" then "win" else r.

Record normalized_battle := {
  nb_battle_time : option string;
  nb_result : string;
  nb_my_cards : list string;
  nb_opp_cards : list string;
  nb_mode_name : string
}.

(** [[c.get("name", "").strip() for c in side.get("cards", [])
      if isinstance(c, dict) and c.get("name")]] *)
Definition side_card_names (cards : list card_entry) : list string :=
  flat_map (fun c => match c with
                     | CardDict _ (Some nm) _ =>
                         if String.eqb nm EmptyString then [] else [py_strip nm]
                     | _ => []
                     end) cards.

(** [side = team[0] if team else {}]; [side.get("crowns", 0)]: here [None]
    stands for an absent [crowns] key (a JSON null would make the
    comparison of [_compute_result] raise, which the model leaves out). *)
Definition side_crowns (side : list participant) : Z :=
  match side with p :: _ => int_or0 (p_crowns p) | [] => 0%Z end.

Definition side_cards (side : list participant) : list string :=
  match side with p :: _ => side_card_names (p_cards p) | [] => [] end.

Definition normalize_battle (b : battle) : normalized_battle :=
  {| nb_battle_time := b_battleTime b;
     nb_result := _compute_result (side_crowns (b_team b)) (side_crowns (b_opponent b));
     nb_my_cards := side_cards (b_team b);
     nb_opp_cards := side_cards (b_opponent b);
     nb_mode_name := str_or (b_gameMode_name b) (str_or (b_type b) EmptyString) |}.

(** The normalised record of the same battle seen from the other side. *)
Definition flip_normalized (n : normalized_battle) : normalized_battle :=
  {| nb_battle_time := nb_battle_time n; nb_result := flip_result (nb_result n);
     nb_my_cards := nb_opp_cards n; nb_opp_cards := nb_my_cards n;
     nb_mode_name := nb_mode_name n |}.

(** Every entry of the list is a dict, as the model's [battle] is. *)
Definition filter_and_normalize_ranked_1v1 (battles_raw : list battle) : list normalized_battle :=
  map normalize_battle (List.filter is_ranked_1v1_battle battles_raw).

(* ================================================================== *)
(** ** [summarize_deck_types], [_deck_type_stats_to_list], [_finalize_stats]
       (deck_type.py) *)

(** [{"games": 0, "wins": 0, "losses": 0, "draws": 0}] *)
Record type_bucket := { tb_games : nat; tb_wins : nat; tb_losses : nat; tb_draws : nat }.

Definition type_bucket0 : type_bucket :=
  {| tb_games := 0; tb_wins := 0; tb_losses := 0; tb_draws := 0 |}.

(** [bucket = _ensure_bucket(stats, key); bucket["games"] += 1; ...]; with
    [flip] the opponent's perspective ([win] counts as a loss). *)
Definition count_result (stats : list (string * type_bucket)) (key result : string) (flip : bool)
  : list (string * type_bucket) :=
  let b := dict_get_default stats key type_bucket0 in
  let win := String.eqb result "win" in
  let loss := String.eqb result "loss" in
  dict_set stats key
    {| tb_games := tb_games b + 1;
       tb_wins := tb_wins b + b2n (if flip then loss else win);
       tb_losses := tb_losses b + b2n (if flip then win else loss);
       tb_draws := tb_draws b + b2n (negb win && negb loss) |}.

(** [classify_deck(cards) if len(cards) == 8 else None] *)
Definition deck_type_of (by_name : card_meta_by_name) (cards : list string) : option string :=
  if (length cards =? 8)%nat then Some (classify_deck by_name cards) else None.

(** One iteration of the loop of [summarize_deck_types]. *)
Definition summarize_step (by_name : card_meta_by_name)
  (acc : list (string * type_bucket) * list (string * type_bucket)) (nb : normalized_battle)
  : list (string * type_bucket) * list (string * type_bucket) :=
  let '(my, opp) := acc in
  (match deck_type_of by_name (nb_my_cards nb) with
   | Some t => count_result my t (nb_result nb) false
   | None => my
   end,
   match deck_type_of by_name (nb_opp_cards nb) with
   | Some t => count_result opp t (nb_result nb) true
   | None => opp
   end).

Record type_row := {
  tr_type : string; tr_games : nat; tr_wins : nat; tr_losses : nat; tr_draws : nat;
  tr_win_rate : Q
}.

(** [wins / games if games > 0 else 0.0], as an exact quotient; the float
    CPython computes is its correctly rounded value, which orders two such
    quotients as they are ordered when the counts are below 2^26. *)
Definition win_rate (wins games : nat) : Q :=
  if (games =? 0)%nat then 0 else Qdiv (inject_Z (Z.of_nat wins)) (inject_Z (Z.of_nat games)).

Definition to_row (e : string * type_bucket) : type_row :=
  let '(t, s) := e in
  {| tr_type := t; tr_games := tb_games s; tr_wins := tb_wins s; tr_losses := tb_losses s;
     tr_draws := tb_draws s; tr_win_rate := win_rate (tb_wins s) (tb_games s) |}.

(** [key=lambda x: (x["win_rate"], x["games"]), reverse=True]: [x] may stay
    before [y] when its key is not smaller. *)
Definition rate_games_ge (x y : type_row) : bool :=
  negb (Qle_bool (tr_win_rate x) (tr_win_rate y))
  || (Qeq_bool (tr_win_rate x) (tr_win_rate y) && (tr_games y <=? tr_games x)%nat).

(** Two rows have the same sort key [(win_rate, games)]. *)
Definition same_rate_games (x y : type_row) : bool :=
  Qeq_bool (tr_win_rate x) (tr_win_rate y) && (tr_games x =? tr_games y)%nat.

Definition _deck_type_stats_to_list (stats : list (string * type_bucket)) : list type_row :=
  sort_by rate_games_ge (map to_row stats).

Definition summarize_deck_types (by_name : card_meta_by_name) (battles : list normalized_battle)
  : list type_row * list type_row :=
  let '(my, opp) := fold_left (summarize_step by_name) battles ([], []) in
  (_deck_type_stats_to_list my, _deck_type_stats_to_list opp).

(** [key=lambda d: d["games"], reverse=True] *)
Definition games_ge (x y : type_row) : bool := (tr_games y <=? tr_games x)%nat.

Definition _finalize_stats (raw : list (string * type_bucket)) : list type_row :=
  sort_by games_ge (map to_row raw).

(** Totals of a column over rows, and counts over battles. *)
Definition rows_total (f : type_row -> nat) (rows : list type_row) : nat :=
  fold_right (fun r acc => f r + acc) 0 rows.

Definition count_battles (P : normalized_battle -> bool) (l : list normalized_battle) : nat :=
  length (List.filter P l).

Definition has8 (cards : list string) : bool := (length cards =? 8)%nat.

(* ================================================================== *)
(** ** [load_card_metadata] (card_metadata.py) and [load_deck_type_overrides]
       (etl_snapshot_top20.py) *)

(** A row of [card_metadata.json]: its [id] ([None] when absent or null)
    and its [name]. *)
Record meta_row := { row_id : option Z; row_name : option string }.

(** [str(row.get("id"))] *)
Definition row_key (r : meta_row) : string :=
  match row_id r with Some z => py_str_int z | None => "None" end.

Definition load_card_metadata (data : list meta_row) : list (string * meta_row) :=
  fold_left (fun out row => dict_set out (row_key row) row) data [].

(** [card_name_from_id] on the dict [load_card_metadata] builds. *)
Definition card_name_from_id_dict (meta : list (string * meta_row)) (card_id : string)
  : option string :=
  match dict_get meta card_id with
  | None => None
  | Some row =>
      match row_name row with
      | Some nm => if String.eqb nm EmptyString then None else Some (py_strip nm)
      | None => None
      end
  end.

(** The last element of [l] satisfying [p]. *)
Definition last_with {A} (p : A -> bool) (l : list A) : option A :=
  fold_left (fun acc x => if p x then Some x else acc) l None.

(** [for dh, dt in rows: if dh and dt: overrides[str(dh)] = str(dt)] *)
Definition load_deck_type_overrides (rows : list (option string * option string))
  : list (string * string) :=
  fold_left (fun o '(dh, dt) =>
               match dh, dt with
               | Some d, Some t =>
                   if negb (String.eqb d EmptyString) && negb (String.eqb t EmptyString)
                   then dict_set o d t else o
               | _, _ => o
               end) rows [].

(** A row that sets an override for [dh]. *)
Definition override_row_for (dh : string) (r : option string * option string) : bool :=
  match r with
  | (Some d, Some t) => String.eqb d dh && negb (String.eqb d EmptyString)
                        && negb (String.eqb t EmptyString)
  | _ => false
  end.

(* ================================================================== *)
(** ** Vocabulary of further statements *)

(** A lowercase hexadecimal digit. *)
Definition is_hex_char (c : ascii) : bool :=
  let n := code c in ((48 <=? n)%Z && (n <=? 57)%Z) || ((97 <=? n)%Z && (n <=? 102)%Z).

(** Text with no white space at either end. *)
Definition stripped (s : string) : Prop := no_lead_ws s /\ no_lead_ws (str_rev s).

(** The totals of [meta_type_deck_ids] and [meta_type_cards] for archetype [t]. *)
Definition type_deck_total (st : etl_state) (t : string) (w : bool) : nat :=
  sum_sel (fun '(t', _) => String.eqb t' t) w (meta_type_deck_ids st).

Definition type_card_total (st : etl_state) (t : string) (w : bool) : nat :=
  sum_sel (fun '(t', _, _) => String.eqb t' t) w (meta_type_cards st).

(** What [main] stores about a deck hash: the 8 extracted cards, slots
    1..8, distinct [(card_id, variant)] pairs, hashing to [dh]. *)
Definition stored_deck (dh : string) (os : list CardObs) : Prop :=
  deck_hash_of os = dh /\ length os = 8%nat /\ List.NoDup (map obs_key os) /\
  map slot os = seq 1 8.

(** The number of entries of a player's fetched battle log. *)
Definition log_length (env : etl_env) (ptag : string) : nat :=
  match env_battlelog env ptag with Some bs => length bs | None => 0 end.

(** The variants [card_variant_from_evolution_level] produces. *)
Definition VARIANTS : list string := ["evo"; "hero"; "normal"].

(** The deck tables of a scan state: each stored card list is a stored
    deck of its hash, its type is the type [main] resolves for those
    cards, the two tables have the same keys, and [cards_dim] holds
    non-empty stripped names. *)
Definition deck_tables_ok (env : etl_env) (st : etl_state) : Prop :=
  (forall dh os, dict_get (deck_hash_to_cards st) dh = Some os -> stored_deck dh os) /\
  (forall dh t, dict_get (deck_hash_to_type st) dh = Some t ->
     exists os, dict_get (deck_hash_to_cards st) dh = Some os /\ t = resolve_type env dh os) /\
  (forall dh, dict_get (deck_hash_to_type st) dh = None <-> dict_get (deck_hash_to_cards st) dh = None) /\
  (forall cid nm, In (cid, nm) (cards_dim st) -> nm <> EmptyString /\ stripped nm).

(** [x <= y] on elixir costs, the order of [sorted(elixirs)]. *)
Definition Zleb_rel (x y : Z) : Prop := (x <=? y)%Z = true.

(** A hex digest: 40 lowercase hexadecimal digits. *)
Definition is_hex40 (s : string) : Prop :=
  String.length s = 40%nat /\ Forall (fun c => is_hex_char c = true) (list_ascii_of_string s).

(** [battle.get("result") == r] *)
Definition is_res (r : string) (nb : normalized_battle) : bool := String.eqb (nb_result nb) r.

(** A result that is neither ["win"] nor ["loss"] (counted as a draw). *)
Definition is_other_res (nb : normalized_battle) : bool :=
  negb (is_res "win" nb) && negb (is_res "loss" nb).

(** A row of the deck type statistics as [summarize_deck_types] makes them:
    [games = wins + losses + draws >= 1] and [0 <= win_rate <= 1]. *)
Definition row_ok (r : type_row) : Prop :=
  tr_games r = tr_wins r + tr_losses r + tr_draws r /\ (1 <= tr_games r)%nat /\
  (0 <= tr_win_rate r /\ tr_win_rate r <= 1)%Q.

(** A statistics bucket after at least one battle. *)
Definition bucket_ok (b : type_bucket) : Prop :=
  tb_games b = tb_wins b + tb_losses b + tb_draws b /\ (1 <= tb_games b)%nat.

(** The scan state after the first battle of [ex_env], and the deck of its
    team side. *)
Definition ex_state_one : etl_state := process_battle ex_env ["#AAA"] etl_init ex_battle.
Definition ex_deck_aaa : list CardObs := ex_obs (ex_part "#AAA" 3 26000000).

(* ================================================================== *)
(** ** Tests of the embedding against values computed by CPython *)

Example sha1_empty : sha1_hex EmptyString = "da39a3ee5e6b4b0d3255bfef95601890afd80709".
Proof. vm_compute. reflexivity. Qed.
Example sha1_abc : sha1_hex "abc" = "a9993e364706816aba3e25717850c26c9cd0d89d".
Proof. vm_compute. reflexivity. Qed.
Example sha1_two_blocks :
  sha1_hex "abcdbcdecdefdefgefghfghighijhijkijkljklmklmnlmnomnopnopq"
  = "84983e441c3bd26ebaae4aa1f95129e5e54670f1".
Proof. vm_compute. reflexivity. Qed.
Example py_str_int_ex : py_str_int 72000006 = "72000006" /\ py_str_int (-5) = "-5"
                        /\ py_str_int 0 = "0" /\ py_str_int 10 = "10".
Proof. vm_compute. auto. Qed.

Example match_blob_ex :
  match_blob ex_battle
  = "{" ++ dq ++ "battleTime" ++ dq ++ ":" ++ dq ++ "20251001T120000.000Z" ++ dq ++ ","
    ++ dq ++ "mode" ++ dq ++ ":" ++ dq ++ "72000006" ++ dq ++ ","
    ++ dq ++ "opponent" ++ dq ++ ":[{" ++ dq ++ "crowns" ++ dq ++ ":1," ++ dq ++ "tag" ++ dq ++ ":"
    ++ dq ++ "#BBB" ++ dq ++ "}]," ++ dq ++ "team" ++ dq ++ ":[{" ++ dq ++ "crowns" ++ dq ++ ":3,"
    ++ dq ++ "tag" ++ dq ++ ":" ++ dq ++ "#AAA" ++ dq ++ "}]}".
Proof. vm_compute. reflexivity. Qed.
Example canonical_deck_signature_ex :
  canonical_deck_signature [("26000015", "normal"); ("26000063", "evo"); ("26000015", "evo");
                            ("28000000", "normal"); ("100", "hero")]
  = "100:hero|26000015:evo|26000015:normal|26000063:evo|28000000:normal".
Proof. vm_compute. reflexivity. Qed.
Example deck_hash_ex :
  deck_hash_from_signature "100:hero|26000015:evo|26000015:normal"
  = "6f0c21a81671710b932d713cfe1caecaab4c38fc".
Proof. vm_compute. reflexivity. Qed.

(* ================================================================== *)
(** ** Python's string and tuple orders *)

Lemma str_cmp_spec (x y : string) :
  CompSpec eq (fun a b => str_cmp a b = Lt) x y (str_cmp x y).
Proof. apply String_as_OT.compare_spec. Qed.

Lemma str_cmp_refl (x : string) : str_cmp x x = Eq.
Proof.
  destruct (str_cmp_spec x x) as [|H|H]; auto;
    exfalso; exact (StrictOrder_Irreflexive (R := String_as_OT.lt) x H).
Qed.

Lemma str_cmp_eq (x y : string) : str_cmp x y = Eq -> x = y.
Proof. destruct (str_cmp_spec x y); congruence. Qed.

Lemma str_cmp_lt_trans (x y z : string) :
  str_cmp x y = Lt -> str_cmp y z = Lt -> str_cmp x z = Lt.
Proof.
  intros H1 H2. exact (StrictOrder_Transitive (R := String_as_OT.lt) x y z H1 H2).
Qed.

Lemma str_cmp_opp (x y : string) : str_cmp y x = CompOpp (str_cmp x y).
Proof.
  destruct (str_cmp_spec x y) as [->|H|H].
  - now rewrite str_cmp_refl.
  - destruct (str_cmp_spec y x) as [->|H'|H']; simpl; auto.
    + now rewrite str_cmp_refl in H.
    + exfalso. pose proof (str_cmp_lt_trans _ _ _ H H') as Hx.
      now rewrite str_cmp_refl in Hx.
  - destruct (str_cmp_spec y x) as [->|H'|H']; simpl; auto.
    + now rewrite str_cmp_refl in H.
    + exfalso. pose proof (str_cmp_lt_trans _ _ _ H H') as Hx.
      now rewrite str_cmp_refl in Hx.
Qed.

Definition key_lt (x y : string * string) : Prop := key_cmp x y = Lt.

Lemma key_cmp_eq (x y : string * string) : key_cmp x y = Eq -> x = y.
Proof.
  destruct x as [x1 x2], y as [y1 y2]. unfold key_cmp; simpl.
  destruct (str_cmp x1 y1) eqn:E; try discriminate.
  intros H. apply str_cmp_eq in E, H. now subst.
Qed.

Lemma key_cmp_refl (x : string * string) : key_cmp x x = Eq.
Proof. destruct x. unfold key_cmp; simpl. now rewrite !str_cmp_refl. Qed.

Lemma key_cmp_opp (x y : string * string) : key_cmp y x = CompOpp (key_cmp x y).
Proof.
  destruct x as [x1 x2], y as [y1 y2]. unfold key_cmp; simpl.
  rewrite (str_cmp_opp x1 y1), (str_cmp_opp x2 y2).
  destruct (str_cmp x1 y1); reflexivity.
Qed.

Lemma key_lt_trans (x y z : string * string) : key_lt x y -> key_lt y z -> key_lt x z.
Proof.
  destruct x as [x1 x2], y as [y1 y2], z as [z1 z2]. unfold key_lt, key_cmp; simpl.
  destruct (str_cmp x1 y1) eqn:E1, (str_cmp y1 z1) eqn:E2; try discriminate; intros H1 H2.
  - apply str_cmp_eq in E1, E2. subst. rewrite str_cmp_refl. eauto using str_cmp_lt_trans.
  - apply str_cmp_eq in E1. subst. now rewrite E2.
  - apply str_cmp_eq in E2. subst. now rewrite E1.
  - now rewrite (str_cmp_lt_trans _ _ _ E1 E2).
Qed.

Lemma key_le_spec (x y : string * string) : key_le x y = true <-> key_lt x y \/ x = y.
Proof.
  unfold key_le, key_lt. split.
  - destruct (key_cmp x y) eqn:E; auto; [intros _; right; now apply key_cmp_eq|discriminate].
  - intros [H| ->]; [now rewrite H|now rewrite key_cmp_refl].
Qed.


Lemma key_le_total (x y : string * string) : key_le x y = true \/ key_le y x = true.
Proof.
  unfold key_le. rewrite (key_cmp_opp x y). destruct (key_cmp x y); auto.
Qed.

#[local] Instance key_le_trans : Transitive key_le_rel.
Proof.
  intros x y z. unfold key_le_rel. rewrite !key_le_spec.
  intros [H1| ->] [H2| ->]; auto. left. eauto using key_lt_trans.
Qed.

#[local] Instance key_le_antisymm : AntiSymm (=) key_le_rel.
Proof.
  intros x y. unfold key_le_rel, key_le. rewrite (key_cmp_opp x y).
  destruct (key_cmp x y) eqn:E; simpl; try discriminate; intros _ _.
  now apply key_cmp_eq.
Qed.

(* ================================================================== *)
(** ** The stable sort returns a sorted permutation *)

Section SortFacts.
Context {A : Type} (le : A -> A -> bool).
Hypothesis le_total : forall x y, le x y = true \/ le y x = true.

Let R (x y : A) : Prop := le x y = true.

Lemma insert_sorted_perm (x : A) (l : list A) : insert_sorted le x l ≡ₚ x :: l.
Proof.
  induction l as [|y l IH]; simpl; [done|].
  destruct (le x y); [done|]. rewrite IH. constructor.
Qed.

Lemma sort_by_perm (l : list A) : sort_by le l ≡ₚ l.
Proof.
  induction l as [|x l IH]; simpl; [done|]. rewrite insert_sorted_perm, IH. done.
Qed.

Lemma insert_sorted_hd (y x : A) (l : list A) :
  R y x -> HdRel R y l -> HdRel R y (insert_sorted le x l).
Proof.
  intros Hyx Hl. destruct l as [|z l]; simpl.
  - by constructor.
  - destruct (le x z); constructor; [done|]. by inversion Hl.
Qed.

Lemma insert_sorted_sorted (x : A) (l : list A) :
  Sorted R l -> Sorted R (insert_sorted le x l).
Proof.
  induction 1 as [|y l Hl IH Hd]; simpl.
  - by repeat constructor.
  - destruct (le x y) eqn:E.
    + constructor; [by constructor|]. by constructor.
    + constructor; [done|]. apply insert_sorted_hd; [|done].
      unfold R. destruct (le_total x y); congruence.
Qed.

Lemma sort_by_sorted (l : list A) : Sorted R (sort_by le l).
Proof. induction l; simpl; [constructor|]. by apply insert_sorted_sorted. Qed.

End SortFacts.

(** Stability: the elements of a class whose members are pairwise ordered
    by [le] keep their relative order. *)
Lemma insert_sorted_filter {A : Type} (le : A -> A -> bool) (p : A -> bool)
  (Hp : forall x y, p x = true -> p y = true -> le x y = true) (x : A) (l : list A) :
  List.filter p (insert_sorted le x l) = List.filter p (x :: l).
Proof.
  induction l as [|y l IH]; simpl; [reflexivity|].
  destruct (le x y) eqn:Exy; [reflexivity|]. simpl. rewrite IH. simpl.
  destruct (p x) eqn:Ex, (p y) eqn:Ey; try reflexivity.
  rewrite (Hp x y Ex Ey) in Exy. discriminate.
Qed.

Lemma sort_by_filter {A : Type} (le : A -> A -> bool) (p : A -> bool)
  (Hp : forall x y, p x = true -> p y = true -> le x y = true) (l : list A) :
  List.filter p (sort_by le l) = List.filter p l.
Proof.
  induction l as [|x l IH]; simpl; [reflexivity|].
  rewrite (insert_sorted_filter le p Hp). simpl. rewrite IH. reflexivity.
Qed.

Lemma same_rate_games_ge (r x y : type_row) :
  same_rate_games r x = true -> same_rate_games r y = true -> rate_games_ge x y = true.
Proof.
  unfold same_rate_games, rate_games_ge.
  rewrite !andb_true_iff, !Qeq_bool_iff, !Nat.eqb_eq.
  intros [Hx Gx] [Hy Gy].
  apply orb_true_iff. right. apply andb_true_iff. split.
  - apply Qeq_bool_iff. rewrite <- Hx, <- Hy. reflexivity.
  - apply Nat.leb_le. lia.
Qed.

Lemma sort_by_key_le_perm (l1 l2 : list (string * string)) :
  l1 ≡ₚ l2 -> sort_by key_le l1 = sort_by key_le l2.
Proof.
  intros Hp. apply (Sorted_unique key_le_rel).
  - apply (sort_by_sorted key_le key_le_total).
  - apply (sort_by_sorted key_le key_le_total).
  - rewrite !sort_by_perm. done.
Qed.

(* ================================================================== *)
(** ** C2: deck identity does not depend on slot order *)

(** Claim C2: for every sequence of [(card_id, variant)] pairs (in
    particular the 8 of a deck) and every permutation of it,
    [canonical_deck_signature] yields the same signature and
    [deck_hash_from_signature] therefore the same deck hash. *)
Theorem canonical_deck_signature_perm_invariant (cards cards' : list (string * string)) :
  cards ≡ₚ cards' ->
  canonical_deck_signature cards = canonical_deck_signature cards' /\
  deck_hash_from_signature (canonical_deck_signature cards)
  = deck_hash_from_signature (canonical_deck_signature cards').
Proof.
  intros Hp. unfold canonical_deck_signature.
  rewrite (sort_by_key_le_perm cards cards' Hp). split; reflexivity.
Qed.

Lemma canonical_deck_signature_perm_invariant_witness :
  ex_deck_keys ≡ₚ rev ex_deck_keys /\
  canonical_deck_signature ex_deck_keys = canonical_deck_signature (rev ex_deck_keys) /\
  deck_hash_from_signature (canonical_deck_signature ex_deck_keys)
  = deck_hash_from_signature (canonical_deck_signature (rev ex_deck_keys)).
Proof.
  split; [apply Permutation_rev|].
  apply (canonical_deck_signature_perm_invariant ex_deck_keys (rev ex_deck_keys)).
  apply Permutation_rev.
Defined.

(* ================================================================== *)
(** ** Deck statistics *)

Lemma precompute_fields (by_name : card_meta_by_name) (cards : list string) :
  let v := _precompute_deck_values by_name cards in
  has_xbow v = meets cards _SIEGE_XBOW /\
  has_mortar v = meets cards _SIEGE_MORTAR /\
  bait_pieces v = count_flag cm_is_bait_piece (map (_get_card_meta by_name) cards) /\
  bridge_spam_count v = count_flag cm_is_bridge_spam_piece (map (_get_card_meta by_name) cards) /\
  big_tank_count v = count_flag cm_is_big_tank (map (_get_card_meta by_name) cards).
Proof.
  unfold _precompute_deck_values. cbv zeta.
  destruct (flat_map _ _); repeat split.
Qed.

Lemma meets_single (cards : list string) (s : string) :
  meets cards [s] = true <-> In s cards.
Proof.
  unfold meets. rewrite existsb_exists. split.
  - intros (c & Hc & Hs). simpl in Hs. rewrite orb_false_r, String.eqb_eq in Hs. now subst.
  - intros H. exists s. simpl. now rewrite String.eqb_refl.
Qed.

Lemma count_flag_map (f : CardMeta -> bool) (by_name : card_meta_by_name) (cards : list string) :
  count_flag f (map (_get_card_meta by_name) cards)
  = length (List.filter (fun c => f (_get_card_meta by_name c)) cards).
Proof.
  unfold count_flag. induction cards as [|c cs IH]; simpl; [done|].
  destruct (f (_get_card_meta by_name c)); simpl; auto.
Qed.

Lemma classify_deck_cons (by_name : card_meta_by_name) (cards : list string) :
  cards <> [] -> classify_deck by_name cards = classify_values (_precompute_deck_values by_name cards).
Proof. destruct cards; [contradiction|reflexivity]. Qed.

(* ================================================================== *)
(** ** C3: the classifier is an ordered cascade *)

(** Claim C3: [classify_deck] is first-match-wins: every card list that
    contains ["X-Bow"] is Siege whatever the elixir costs, and every card
    list with at least 3 cards flagged [is_bait_piece] and neither
    ["X-Bow"] nor ["Mortar"] is Bait, whatever its four-card cycle cost
    (in particular when it is at most 9, which would make it Cycle). *)
Theorem classify_deck_cascade_precedence (by_name : card_meta_by_name) :
  (forall cards, In "X-Bow" cards -> classify_deck by_name cards = ARCHETYPE_SIEGE) /\
  (forall cards, ~ In "X-Bow" cards -> ~ In "Mortar" cards ->
     (3 <= length (List.filter (fun c => cm_is_bait_piece (_get_card_meta by_name c)) cards))%nat ->
     classify_deck by_name cards = ARCHETYPE_BAIT).
Proof.
  split.
  - intros cards Hin. rewrite classify_deck_cons by (intros ->; inversion Hin).
    destruct (precompute_fields by_name cards) as (Hx & _).
    unfold classify_values. rewrite Hx.
    apply meets_single in Hin. unfold _SIEGE_XBOW. now rewrite Hin.
  - intros cards Hx Hm Hb.
    rewrite classify_deck_cons by (intros ->; simpl in Hb; lia).
    destruct (precompute_fields by_name cards) as (Hx' & Hm' & Hb' & _).
    unfold classify_values. rewrite Hx', Hm', Hb'.
    assert (meets cards _SIEGE_XBOW = false) as ->.
    { apply not_true_is_false. unfold _SIEGE_XBOW, _SIEGE_MORTAR. now rewrite meets_single. }
    assert (meets cards _SIEGE_MORTAR = false) as ->.
    { apply not_true_is_false. unfold _SIEGE_XBOW, _SIEGE_MORTAR. now rewrite meets_single. }
    rewrite count_flag_map. apply Nat.leb_le in Hb. now rewrite Hb.
Qed.

Lemma classify_deck_cascade_precedence_witness :
  classify_deck ex_meta_by_name ex_xbow_heavy_deck = ARCHETYPE_SIEGE /\
  Qle_bool (four_card_cycle_cost (_precompute_deck_values ex_meta_by_name ex_bait_cheap_deck))
           (9 # 1) = true /\
  classify_deck ex_meta_by_name ex_bait_cheap_deck = ARCHETYPE_BAIT.
Proof.
  split; [|split].
  - apply (proj1 (classify_deck_cascade_precedence ex_meta_by_name)). simpl. auto.
  - vm_compute. reflexivity.
  - apply (proj2 (classify_deck_cascade_precedence ex_meta_by_name)).
    + simpl. intuition discriminate.
    + simpl. intuition discriminate.
    + vm_compute. lia.
Defined.

(* ================================================================== *)
(** ** C9: the fallback for a deck with no known elixir cost *)

Lemma elixirs_all_unknown (by_name : card_meta_by_name) (cards : list string) :
  (forall c, In c cards -> cm_elixir (_get_card_meta by_name c) = None) ->
  flat_map elixir_list (map (_get_card_meta by_name) cards) = [].
Proof.
  induction cards as [|c cs IH]; intros Hunk; simpl; [done|].
  unfold elixir_list at 1. rewrite (Hunk c (or_introl eq_refl)). simpl.
  apply IH. intros c' Hc'. apply Hunk. now right.
Qed.

(** Claim C9: when a non-empty card list has no card with a known elixir
    cost, the statistics default to average elixir 3.0 and four-card
    cycle cost 12.0, and since 12 > 9 the deck never classifies as Cycle. *)
Theorem all_unknown_deck_never_cycle (by_name : card_meta_by_name) (cards : list string)
  (Hne : cards <> [])
  (Hunk : forall c, In c cards -> cm_elixir (_get_card_meta by_name c) = None) :
  avg_elixir (_precompute_deck_values by_name cards) = (3 # 1) /\
  four_card_cycle_cost (_precompute_deck_values by_name cards) = (12 # 1) /\
  classify_deck by_name cards <> ARCHETYPE_CYCLE.
Proof.
  assert (Hv : avg_elixir (_precompute_deck_values by_name cards) = (3 # 1) /\
  four_card_cycle_cost (_precompute_deck_values by_name cards) = (12 # 1)).
  { unfold _precompute_deck_values. cbv zeta.
    rewrite (elixirs_all_unknown by_name cards Hunk). split; reflexivity. }
  destruct Hv as [Havg Hfour]. split; [done|]. split; [done|].
  rewrite classify_deck_cons by done. unfold classify_values. rewrite Hfour.
  replace (Qle_bool (12 # 1) (9 # 1)) with false by reflexivity.
  destruct (has_xbow _); [discriminate|].
  destruct (has_mortar _); [discriminate|].
  destruct (3 <=? _)%nat; [discriminate|].
  destruct (2 <=? _)%nat; [discriminate|].
  destruct (_ && _); discriminate.
Qed.

Lemma all_unknown_deck_never_cycle_witness :
  classify_deck ex_meta_by_name ex_unknown_deck <> ARCHETYPE_CYCLE.
Proof.
  apply (all_unknown_deck_never_cycle ex_meta_by_name ex_unknown_deck).
  - discriminate.
  - intros c Hc. simpl in Hc.
    repeat (destruct Hc as [<-|Hc]; [reflexivity|]). contradiction.
Defined.

(* ================================================================== *)
(** ** C6: card extraction *)

Lemma build_obs_some (card_meta : card_meta_by_id) (idx : nat) (cards : list card_entry)
  (out : list CardObs) :
  build_obs card_meta idx cards = Some out ->
  length out = length cards /\ (forall c, In c cards -> entry_id c <> None).
Proof.
  revert idx out. induction cards as [|c cs IH]; intros idx out H; simpl in H.
  - injection H as <-. split; [done|]. intros c [].
  - destruct c as [|[cid|] nm lvl]; try discriminate.
    destruct (build_obs card_meta (S idx) cs) as [out'|] eqn:E; [|discriminate].
    injection H as <-. destruct (IH (S idx) out' E) as [Hl Hid].
    split; [simpl; lia|]. intros c [<-|Hc]; [discriminate|]. now apply Hid.
Qed.

Lemma build_obs_none (card_meta : card_meta_by_id) (idx : nat) (cards : list card_entry) :
  build_obs card_meta idx cards = None -> exists c, In c cards /\ entry_id c = None.
Proof.
  revert idx. induction cards as [|c cs IH]; intros idx H; simpl in H; [discriminate|].
  destruct c as [|[cid|] nm lvl].
  - exists CardNotDict. split; [now left|reflexivity].
  - destruct (build_obs card_meta (S idx) cs) eqn:E; [discriminate|].
    destruct (IH (S idx) E) as (c & Hc & Hid). exists c. split; [now right|done].
  - exists (CardDict None nm lvl). split; [now left|reflexivity].
Qed.

Lemma distinct_keys_spec (out : list CardObs) :
  length out = 8%nat -> (distinct_keys out = 8%nat <-> List.NoDup (map obs_key out)).
Proof.
  intros Hl. unfold distinct_keys. split.
  - intros H. apply (NoDup_incl_NoDup (l := nodup pair_eq_dec (map obs_key out))).
    + apply NoDup_nodup.
    + rewrite H, length_map. lia.
    + intros x. apply nodup_In.
  - intros H. rewrite (nodup_fixed_point pair_eq_dec H), length_map. done.
Qed.

Lemma extract_8_cards_cases (card_meta : card_meta_by_id) (part : participant) :
  let cards := p_cards part in
  match _extract_8_cards card_meta part with
  | None =>
      (length cards < 8)%nat \/
      (exists c, In c (firstn 8 cards) /\ entry_id c = None) \/
      (exists out, build_obs card_meta 1 (firstn 8 cards) = Some out /\
                   ~ List.NoDup (map obs_key out))
  | Some out =>
      (8 <= length cards)%nat /\
      (forall c, In c (firstn 8 cards) -> entry_id c <> None) /\
      build_obs card_meta 1 (firstn 8 cards) = Some out /\
      length out = 8%nat /\ List.NoDup (map obs_key out) /\ distinct_keys out = 8%nat
  end.
Proof.
  cbv zeta. unfold _extract_8_cards.
  destruct (length (p_cards part) <? 8)%nat eqn:Hlt.
  { left. now apply Nat.ltb_lt. }
  apply Nat.ltb_ge in Hlt.
  destruct (build_obs card_meta 1 (firstn 8 (p_cards part))) as [out|] eqn:Hb.
  - destruct (build_obs_some _ _ _ _ Hb) as [Hl Hid].
    rewrite length_firstn, Nat.min_l in Hl by done.
    destruct (distinct_keys out =? 8)%nat eqn:Hd.
    + apply Nat.eqb_eq in Hd. repeat split; auto.
      now apply distinct_keys_spec.
    + apply Nat.eqb_neq in Hd. right; right. exists out. split; [done|].
      intros Hn. apply Hd. now apply distinct_keys_spec.
  - right; left. now apply (build_obs_none card_meta 1).
Qed.

(** Claim C6: [_extract_8_cards] returns no observation exactly when the
    raw card list has fewer than 8 entries, or one of its first 8 entries
    has no card identifier (it is not a dict, or its [id] is missing), or
    the 8 built [(card_id, variant)] pairs are not all distinct; otherwise
    it returns the 8 observations built from the first 8 entries, whose
    [(card_id, variant)] pairs have exactly 8 distinct members.  (The
    function is a pure function of its inputs.) *)
Theorem extract_8_cards_spec (card_meta : card_meta_by_id) (part : participant) :
  let cards := p_cards part in
  match _extract_8_cards card_meta part with
  | None =>
      (length cards < 8)%nat \/
      (exists c, In c (firstn 8 cards) /\ entry_id c = None) \/
      (exists out, build_obs card_meta 1 (firstn 8 cards) = Some out /\
                   ~ List.NoDup (map obs_key out))
  | Some out =>
      (8 <= length cards)%nat /\
      (forall c, In c (firstn 8 cards) -> entry_id c <> None) /\
      build_obs card_meta 1 (firstn 8 cards) = Some out /\
      length out = 8%nat /\ List.NoDup (map obs_key out) /\ distinct_keys out = 8%nat
  end.
Proof. exact (extract_8_cards_cases card_meta part). Qed.

(* ================================================================== *)
(** ** C8: the classifier's input *)

Lemma names_for_classifier_filter (obs : list CardObs) :
  names_for_classifier obs
  = List.filter (fun n => negb (String.eqb n EmptyString)) (map card_name obs).
Proof.
  unfold names_for_classifier. induction obs as [|o os IH]; simpl; [done|].
  destruct (String.eqb (card_name o) EmptyString); simpl; [done|]. now f_equal.
Qed.

Section EmptyName.
Variable by_name : card_meta_by_name.
Hypothesis no_empty_name : by_name EmptyString = None.

Let ne (n : string) : bool := negb (String.eqb n EmptyString).

Lemma get_meta_empty : _get_card_meta by_name EmptyString = no_meta.
Proof. unfold _get_card_meta. now rewrite no_empty_name. Qed.

Lemma elixirs_filter_empty (l : list string) :
  flat_map elixir_list (map (_get_card_meta by_name) (List.filter ne l))
  = flat_map elixir_list (map (_get_card_meta by_name) l).
Proof.
  induction l as [|c cs IH]; simpl; [done|]. unfold ne at 1.
  destruct (String.eqb c EmptyString) eqn:E; simpl; [|now rewrite IH].
  apply String.eqb_eq in E. subst. now rewrite get_meta_empty.
Qed.

Lemma meets_filter_empty (l S : list string) :
  existsb (String.eqb EmptyString) S = false ->
  meets (List.filter ne l) S = meets l S.
Proof.
  intros HS. unfold meets. induction l as [|c cs IH]; simpl; [done|]. unfold ne at 1.
  destruct (String.eqb c EmptyString) eqn:E; simpl; [|now rewrite IH].
  apply String.eqb_eq in E. subst. now rewrite HS.
Qed.

Lemma count_flag_filter_empty (f : CardMeta -> bool) (l : list string) :
  f no_meta = false ->
  count_flag f (map (_get_card_meta by_name) (List.filter ne l))
  = count_flag f (map (_get_card_meta by_name) l).
Proof.
  intros Hf. unfold count_flag. induction l as [|c cs IH]; simpl; [done|]. unfold ne at 1.
  destruct (String.eqb c EmptyString) eqn:E; simpl.
  - apply String.eqb_eq in E. subst. now rewrite get_meta_empty, Hf.
  - destruct (f (_get_card_meta by_name c)); simpl; now rewrite IH.
Qed.

Lemma precompute_filter_empty (l : list string) :
  _precompute_deck_values by_name (List.filter ne l) = _precompute_deck_values by_name l.
Proof.
  unfold _precompute_deck_values. cbv zeta.
  rewrite elixirs_filter_empty, !meets_filter_empty by reflexivity.
  rewrite !count_flag_filter_empty by reflexivity. reflexivity.
Qed.

Lemma classify_filter_empty (l : list string) :
  classify_deck by_name (List.filter ne l) = classify_deck by_name l.
Proof.
  destruct l as [|c cs]; [done|].
  rewrite (classify_deck_cons by_name (c :: cs)) by discriminate.
  rewrite <- precompute_filter_empty.
  destruct (List.filter ne (c :: cs)) as [|a l'] eqn:E.
  - reflexivity.
  - rewrite classify_deck_cons by discriminate. reflexivity.
Qed.

End EmptyName.

(** Claim C8, as the code has it: for every valid extracted deck, the
    classifier is called with the non-empty display names of the 8 cards
    in slot order (an unresolved name, the empty string, is left out, so
    it may receive fewer than 8 names); when no metadata row is named by
    the empty string, the label is the one the full list of 8 names, with
    empty strings for the unresolved ones, would get. *)
Theorem classifier_input_omits_unresolved (env : etl_env) (part : participant)
  (obs : list CardObs)
  (Hx : _extract_8_cards (env_card_meta env) part = Some obs)
  (Hbn : env_meta_by_name env EmptyString = None) :
  length obs = 8%nat /\
  names_for_classifier obs
  = List.filter (fun n => negb (String.eqb n EmptyString)) (map card_name obs) /\
  classify_deck (env_meta_by_name env) (names_for_classifier obs)
  = classify_deck (env_meta_by_name env) (map card_name obs).
Proof.
  pose proof (extract_8_cards_cases (env_card_meta env) part) as Hs. cbv zeta in Hs.
  rewrite Hx in Hs. destruct Hs as (_ & _ & _ & Hl & _).
  split; [done|]. rewrite names_for_classifier_filter. split; [done|].
  now apply classify_filter_empty.
Qed.

Lemma classifier_input_omits_unresolved_witness :
  _extract_8_cards (env_card_meta ex_env_unnamed) ex_part_unnamed = Some ex_obs_unnamed /\
  classify_deck ex_meta_by_name (names_for_classifier ex_obs_unnamed)
  = classify_deck ex_meta_by_name (map card_name ex_obs_unnamed).
Proof.
  assert (Hx : _extract_8_cards (env_card_meta ex_env_unnamed) ex_part_unnamed
               = Some ex_obs_unnamed) by (vm_compute; reflexivity).
  split; [exact Hx|].
  apply (classifier_input_omits_unresolved ex_env_unnamed ex_part_unnamed ex_obs_unnamed Hx).
  reflexivity.
Defined.

(** Claim C8 as stated fails: a valid deck with an unresolved card name
    reaches the classifier as 7 names, not as 8 with an empty string. *)
Lemma classifier_input_not_eight_names :
  _extract_8_cards ex_no_card_meta ex_part_unnamed = Some ex_obs_unnamed /\
  length ex_obs_unnamed = 8%nat /\
  In EmptyString (map card_name ex_obs_unnamed) /\
  length (names_for_classifier ex_obs_unnamed) = 7%nat.
Proof.
  split; [vm_compute; reflexivity|]. split; [vm_compute; reflexivity|].
  split; [vm_compute; tauto|]. vm_compute. reflexivity.
Qed.

(* ================================================================== *)
(** ** Facts on [str.strip] and [str.upper] *)

Lemma char_upper_idem (c : ascii) : char_upper (char_upper c) = char_upper c.
Proof. destruct c as [[] [] [] [] [] [] [] []]; reflexivity. Qed.

Lemma char_upper_isspace (c : ascii) : char_isspace (char_upper c) = char_isspace c.
Proof. destruct c as [[] [] [] [] [] [] [] []]; reflexivity. Qed.

Lemma char_upper_hash (c : ascii) : Ascii.eqb (char_upper c) "#"%char = Ascii.eqb c "#"%char.
Proof. destruct c as [[] [] [] [] [] [] [] []]; reflexivity. Qed.

Lemma py_upper_idem (s : string) : py_upper (py_upper s) = py_upper s.
Proof.
  unfold py_upper. induction s as [|c s IH]; cbn [str_map]; [done|].
  now rewrite char_upper_idem, IH.
Qed.

Lemma py_upper_app (s t : string) : py_upper (s ++ t) = py_upper s ++ py_upper t.
Proof.
  unfold py_upper. induction s as [|c s IH]; simpl; [done|]. now rewrite IH.
Qed.

Lemma py_upper_empty (s : string) : py_upper s = EmptyString <-> s = EmptyString.
Proof. unfold py_upper. destruct s; simpl; split; intros H; done. Qed.

(** stdpp declares [String.append] [simpl never]; its two equations: *)
Lemma str_app_nil_l (b : string) : EmptyString ++ b = b.
Proof. reflexivity. Qed.

Lemma str_app_cons (x : ascii) (a b : string) : String x a ++ b = String x (a ++ b).
Proof. reflexivity. Qed.

Lemma str_app_assoc (a b c : string) : a ++ (b ++ c) = (a ++ b) ++ c.
Proof. induction a as [|x a IH]; [done|]. rewrite !str_app_cons. now rewrite IH. Qed.

Lemma str_app_nil_r (a : string) : a ++ EmptyString = a.
Proof. induction a as [|x a IH]; [done|]. rewrite str_app_cons. now rewrite IH. Qed.

Lemma str_rev_app_spec (s acc : string) : str_rev_app s acc = str_rev s ++ acc.
Proof.
  revert acc. induction s as [|c s IH]; intros acc; [done|].
  unfold str_rev. simpl. rewrite !IH, <- str_app_assoc. done.
Qed.

Lemma str_rev_cons (c : ascii) (s : string) :
  str_rev (String c s) = str_rev s ++ String c EmptyString.
Proof. unfold str_rev at 1. simpl. apply str_rev_app_spec. Qed.

Lemma str_rev_app_distr (s t : string) : str_rev (s ++ t) = str_rev t ++ str_rev s.
Proof.
  induction s as [|c s IH].
  - rewrite str_app_nil_l. unfold str_rev at 2. simpl. now rewrite str_app_nil_r.
  - rewrite str_app_cons, !str_rev_cons, IH. symmetry. apply str_app_assoc.
Qed.

Lemma str_rev_involutive (s : string) : str_rev (str_rev s) = s.
Proof.
  induction s as [|c s IH]; [done|].
  rewrite str_rev_cons, str_rev_app_distr, IH. done.
Qed.

Lemma py_upper_rev (s : string) : py_upper (str_rev s) = str_rev (py_upper s).
Proof.
  induction s as [|c s IH]; [done|].
  rewrite str_rev_cons, py_upper_app, IH.
  change (py_upper (String c s)) with (String (char_upper c) (py_upper s)).
  rewrite str_rev_cons. reflexivity.
Qed.

Lemma lstrip_upper (s : string) : lstrip (py_upper s) = py_upper (lstrip s).
Proof.
  unfold py_upper in *. induction s as [|c s IH]; cbn [str_map lstrip]; [done|].
  rewrite char_upper_isspace. destruct (char_isspace c); [done|]. reflexivity.
Qed.

Lemma py_strip_upper (s : string) : py_strip (py_upper s) = py_upper (py_strip s).
Proof.
  unfold py_strip, rstrip. rewrite lstrip_upper, <- py_upper_rev, lstrip_upper, py_upper_rev.
  done.
Qed.


Lemma lstrip_no_lead (s : string) : no_lead_ws (lstrip s).
Proof.
  induction s as [|c s IH]; simpl; [done|].
  destruct (char_isspace c) eqn:E; [done|]. exact E.
Qed.

Lemma lstrip_id (s : string) : no_lead_ws s -> lstrip s = s.
Proof. destruct s as [|c s]; simpl; [done|]. now intros ->. Qed.

Lemma lstrip_app (u v : string) : no_lead_ws v -> lstrip (u ++ v) = lstrip u ++ v.
Proof.
  intros Hv. induction u as [|c u IH]; simpl; [now apply lstrip_id|].
  destruct (char_isspace c); [done|]. reflexivity.
Qed.

Lemma rstrip_cons (c : ascii) (z : string) :
  char_isspace c = false -> rstrip (String c z) = String c (rstrip z).
Proof.
  intros Hc. unfold rstrip. rewrite str_rev_cons, lstrip_app by exact Hc.
  rewrite str_rev_app_distr. reflexivity.
Qed.

Lemma py_strip_no_lead (s : string) : no_lead_ws (py_strip s).
Proof.
  unfold py_strip. pose proof (lstrip_no_lead s) as H.
  destruct (lstrip s) as [|c z]; [done|]. simpl in H.
  rewrite rstrip_cons by exact H. exact H.
Qed.

Lemma py_strip_no_trail (s : string) : no_lead_ws (str_rev (py_strip s)).
Proof. unfold py_strip, rstrip. rewrite str_rev_involutive. apply lstrip_no_lead. Qed.

Lemma py_strip_id (s : string) :
  no_lead_ws s -> no_lead_ws (str_rev s) -> py_strip s = s.
Proof.
  intros H1 H2. unfold py_strip, rstrip. rewrite (lstrip_id s H1), (lstrip_id _ H2).
  apply str_rev_involutive.
Qed.

Lemma no_lead_ws_app (u v : string) : no_lead_ws u -> u <> EmptyString -> no_lead_ws (u ++ v).
Proof. destruct u; simpl; [congruence|done]. Qed.

Lemma no_lead_ws_upper (s : string) : no_lead_ws (py_upper s) <-> no_lead_ws s.
Proof. destruct s; simpl; [done|]. now rewrite char_upper_isspace. Qed.

Lemma str_or_some (s : string) : str_or (Some s) EmptyString = s.
Proof. simpl. destruct (String.eqb s EmptyString) eqn:E; [now apply String.eqb_eq in E|done]. Qed.

Lemma str_rev_empty (s : string) : str_rev s = EmptyString -> s = EmptyString.
Proof.
  intros H. rewrite <- (str_rev_involutive s), H. reflexivity.
Qed.

(* ================================================================== *)
(** ** Python dicts: lookups after updates *)

Section DictFacts.
Context {K V : Type} `{EqDecision K}.

Lemma dict_get_set (d : list (K * V)) (k : K) (v : V) (k' : K) :
  dict_get (dict_set d k v) k' = if decide (k' = k) then Some v else dict_get d k'.
Proof.
  induction d as [|[k0 v0] d IH]; simpl; [done|].
  destruct (decide (k = k0)) as [<-|Hk]; simpl.
  - repeat case_decide; congruence.
  - rewrite IH. repeat case_decide; subst; congruence.
Qed.

Lemma dict_get_In (d : list (K * V)) (k : K) (v : V) : dict_get d k = Some v -> In (k, v) d.
Proof.
  induction d as [|[k0 v0] d IH]; simpl; [done|].
  destruct (decide (k = k0)) as [->|Hk]; [intros [= ->]; now left|].
  intros H. right. now apply IH.
Qed.

Lemma dict_set_In (d : list (K * V)) (k : K) (v : V) (k' : K) (v' : V) :
  In (k', v') (dict_set d k v) -> (k' = k /\ v' = v) \/ In (k', v') d.
Proof.
  induction d as [|[k0 v0] d IH]; simpl.
  - intros [[= -> ->]|[]]. now left.
  - destruct (decide (k = k0)) as [<-|Hk].
    + intros [[= -> ->]|H]; [now left|]. right; now right.
    + intros [H|H]; [right; now left|]. destruct (IH H) as [?|?]; [now left|]. right; now right.
Qed.

Lemma dict_set_Forall (P : K * V -> Prop) (d : list (K * V)) (k : K) (v : V) :
  Forall P d -> P (k, v) -> Forall P (dict_set d k v).
Proof.
  rewrite !List.Forall_forall. intros Hd Hv [k' v'] Hin.
  destruct (dict_set_In d k v k' v' Hin) as [[-> ->]|?]; auto.
Qed.

End DictFacts.

Lemma bump_get {K} `{EqDecision K} (d : list (K * counter)) (k : K) (du dw : nat) (k' : K) :
  dict_get_default (bump d k du dw) k' counter0
  = if decide (k' = k)
    then {| uses := uses (dict_get_default d k counter0) + du;
            wins := wins (dict_get_default d k counter0) + dw |}
    else dict_get_default d k' counter0.
Proof.
  unfold bump, dict_get_default at 1. rewrite dict_get_set. case_decide; [done|].
  reflexivity.
Qed.

Lemma bump_In {K} `{EqDecision K} (d : list (K * counter)) (k : K) (du dw : nat) (k' : K) (c : counter) :
  In (k', c) (bump d k du dw) -> k' = k \/ exists c0, In (k', c0) d.
Proof.
  unfold bump. intros H. destruct (dict_set_In _ _ _ _ _ H) as [[-> _]|H']; [now left|].
  right. eauto.
Qed.

Lemma get_default_ok {K} `{EqDecision K} (d : list (K * counter)) (k : K) :
  counters_ok d -> counter_ok (dict_get_default d k counter0).
Proof.
  unfold counters_ok, dict_get_default. rewrite List.Forall_forall. intros Hd.
  destruct (dict_get d k) as [c|] eqn:E; [|unfold counter_ok; simpl; lia].
  apply (Hd (k, c)), dict_get_In, E.
Qed.

Lemma bump_ok {K} `{EqDecision K} (d : list (K * counter)) (k : K) (du dw : nat) :
  counters_ok d -> (dw <= du)%nat -> counters_ok (bump d k du dw).
Proof.
  intros Hd Hw. unfold bump. apply dict_set_Forall; [exact Hd|].
  pose proof (get_default_ok d k Hd) as Hc. unfold counter_ok in *. simpl. lia.
Qed.

Lemma sum_sel_set {K} `{EqDecision K} (P : K -> bool) (w : bool) (d : list (K * counter))
  (k : K) (v : counter) :
  sum_sel P w (dict_set d k v)
  + (if P k then match dict_get d k with Some v0 => sel w v0 | None => 0 end else 0)
  = sum_sel P w d + (if P k then sel w v else 0).
Proof.
  induction d as [|[k0 v0] d IH]; simpl.
  - destruct (P k); lia.
  - destruct (decide (k = k0)) as [<-|Hk].
    + simpl. destruct (P k); lia.
    + simpl. destruct (decide (k = k0)); [congruence|]. destruct (P k0), (P k); simpl in *; lia.
Qed.

Lemma sum_sel_bump {K} `{EqDecision K} (P : K -> bool) (w : bool) (d : list (K * counter))
  (k : K) (du dw : nat) :
  sum_sel P w (bump d k du dw) = sum_sel P w d + (if P k then (if w then dw else du) else 0).
Proof.
  unfold bump. pose proof (sum_sel_set P w d k
    {| uses := uses (dict_get_default d k counter0) + du;
       wins := wins (dict_get_default d k counter0) + dw |}) as H.
  unfold dict_get_default in *. destruct (dict_get d k) as [c|];
    destruct (P k), w; simpl in *; lia.
Qed.

Lemma fold_left_ind {A B} (P : A -> Prop) (f : A -> B -> A) (l : list B) (a : A) :
  P a -> (forall a b, In b l -> P a -> P (f a b)) -> P (fold_left f l a).
Proof.
  revert a. induction l as [|x l IH]; intros a Ha Hf; simpl; [done|].
  apply IH; [apply Hf; [now left|done]|]. intros a' b Hb. apply Hf. now right.
Qed.

(* ================================================================== *)
(** ** Induction over a scan *)

(** A property kept by every step of the scan holds of its result: the
    only steps that change the aggregates are the [aggregate] calls of
    participants whose cards were extracted. *)
Lemma etl_scan_ind (P : etl_state -> Prop) (env : etl_env) (raw : list (option string)) :
  P etl_init ->
  (forall st n, P st -> P (add_scanned n st)) ->
  (forall st mh, P st -> P (mark_seen mh st)) ->
  (forall st b part obs, P st ->
     _normalize_tag (p_tag part) <> EmptyString ->
     _extract_8_cards (env_card_meta env) part = Some obs ->
     P (aggregate (top_player_tags raw) (_normalize_tag (p_tag part)) (deck_hash_of obs)
          (resolve_type env (deck_hash_of obs) obs)
          obs (_participant_is_win_ranked_1v1 b (_normalize_tag (p_tag part))) st)) ->
  P (etl_scan env raw).
Proof.
  intros Hinit Hscan Hmark Hagg. unfold etl_scan. apply fold_left_ind; [done|].
  intros st ptag _ Hst. unfold process_player.
  destruct (env_battlelog env ptag) as [bs|]; [|done].
  apply fold_left_ind; [auto|]. intros st' b _ H'. unfold process_battle.
  destruct (negb (is_ranked_1v1_battle b)); [done|].
  destruct (existsb _ _); [done|].
  destruct (b_team b) as [|t0 [|? ?]], (b_opponent b) as [|o0 [|? ?]]; try (apply Hmark; exact H').
  apply fold_left_ind; [now apply Hmark|]. intros st'' part _ H''.
  unfold process_participant.
  destruct (String.eqb (_normalize_tag (p_tag part)) EmptyString) eqn:Ht; [done|].
  destruct (_extract_8_cards (env_card_meta env) part) as [obs|] eqn:Hx; [|done].
  apply Hagg; [done| |done]. intros E. rewrite E in Ht. discriminate.
Qed.

(* ================================================================== *)
(** ** C10: tag normalisation *)

Lemma clean_upper_strip (x : string) : clean_tag (py_upper (py_strip x)).
Proof.
  split; [|split].
  - apply no_lead_ws_upper, py_strip_no_lead.
  - rewrite <- py_upper_rev. apply no_lead_ws_upper, py_strip_no_trail.
  - apply py_upper_idem.
Qed.

Lemma clean_hash (t : string) : clean_tag t -> clean_tag (String "#" t).
Proof.
  intros (H1 & H2 & H3). split; [reflexivity|split].
  - rewrite str_rev_cons. destruct (str_rev t) as [|a r] eqn:E; [reflexivity|].
    apply no_lead_ws_app; [exact H2|discriminate].
  - change (py_upper (String "#" t)) with (String (char_upper "#") (py_upper t)).
    rewrite H3. reflexivity.
Qed.

Lemma normalize_clean (t : string) :
  clean_tag t ->
  _normalize_tag (Some t)
  = if negb (String.eqb t EmptyString) && negb (py_startswith_hash t) then "#" ++ t else t.
Proof.
  intros (H1 & H2 & H3). unfold _normalize_tag. cbv zeta.
  rewrite str_or_some, (py_strip_id t H1 H2), H3. reflexivity.
Qed.

Lemma normalize_out (t : option string) :
  clean_tag (_normalize_tag t) /\
  (_normalize_tag t = EmptyString \/ py_startswith_hash (_normalize_tag t) = true).
Proof.
  unfold _normalize_tag. cbv zeta.
  pose proof (clean_upper_strip (str_or t EmptyString)) as Hu.
  set (u := py_upper (py_strip (str_or t EmptyString))) in *.
  destruct (String.eqb u EmptyString) eqn:E1; simpl.
  - split; [done|left]. now apply String.eqb_eq.
  - destruct (py_startswith_hash u) eqn:E2; simpl.
    + split; [done|now right].
    + rewrite str_app_cons, str_app_nil_l. split; [now apply clean_hash|right; reflexivity].
Qed.

Lemma normalize_idem (t : option string) : _normalize_tag (Some (_normalize_tag t)) = _normalize_tag t.
Proof.
  destruct (normalize_out t) as [Hc [H|H]]; rewrite (normalize_clean _ Hc).
  - rewrite H. reflexivity.
  - rewrite H, andb_false_r. reflexivity.
Qed.

Lemma normalize_upper (s1 s2 : string) :
  py_upper s1 = py_upper s2 -> _normalize_tag (Some s1) = _normalize_tag (Some s2).
Proof.
  intros H. unfold _normalize_tag. rewrite !str_or_some, <- !py_strip_upper, H. reflexivity.
Qed.

Lemma normalize_hash (c : ascii) (z : string) :
  char_isspace c = false -> Ascii.eqb c "#"%char = false ->
  _normalize_tag (Some (String "#" (String c z))) = _normalize_tag (Some (String c z)).
Proof.
  intros Hs Hh. unfold _normalize_tag. rewrite !str_or_some.
  assert (E1 : py_strip (String "#" (String c z)) = String "#" (String c (rstrip z))).
  { unfold py_strip.
    change (lstrip (String "#" (String c z))) with (String "#" (String c z)).
    rewrite rstrip_cons by reflexivity. rewrite rstrip_cons by exact Hs. reflexivity. }
  assert (E2 : py_strip (String c z) = String c (rstrip z)).
  { unfold py_strip. rewrite (lstrip_id (String c z)) by exact Hs. now apply rstrip_cons. }
  rewrite E1, E2. cbv zeta. unfold py_upper. cbn [str_map py_startswith_hash].
  rewrite (char_upper_hash c), Hh. reflexivity.
Qed.

Lemma win_normalized (b : battle) (p1 p2 : string) :
  _normalize_tag (Some p1) = _normalize_tag (Some p2) ->
  _participant_is_win_ranked_1v1 b p1 = _participant_is_win_ranked_1v1 b p2.
Proof. intros H. unfold _participant_is_win_ranked_1v1. rewrite H. reflexivity. Qed.

Lemma top_tags_normal (raw : list (option string)) (t : string) :
  In t (top_player_tags raw) -> _normalize_tag (Some t) = t /\ t <> EmptyString.
Proof.
  unfold top_player_tags. rewrite List.filter_In, in_map_iff.
  intros [[r [<- _]] Hne]. split; [apply normalize_idem|].
  intros E. rewrite E in Hne. discriminate.
Qed.

Lemma player_keys_top (env : etl_env) (raw : list (option string)) :
  forall tag dh c, In ((tag, dh), c) (player_decks_top (etl_scan env raw)) ->
  In tag (top_player_tags raw).
Proof.
  apply etl_scan_ind; [intros ? ? ? []|done|done|].
  intros st b part obs IH _ _ tag dh c. simpl.
  destruct (existsb _ _) eqn:Ex; [|apply IH].
  intros Hin. destruct (bump_In _ _ _ _ _ _ Hin) as [[= -> _]|[c0 Hc0]]; [|eapply IH; eauto].
  apply existsb_exists in Ex as [x [Hx Heq]]. apply String.eqb_eq in Heq. now subst.
Qed.

(** C10. Every tag [main] keys or compares is [_normalize_tag]'s output:
    the normalisation (strip, uppercase, prefix ['#'] when non-empty) is
    idempotent; it identifies tags that agree up to case and those that
    differ by a leading ['#']; win determination sees only the normalised
    participant tag; the top-player tags are fixed points of it, and every
    player key of [player_decks_top] is one of them. *)
Theorem normalize_tag_canonical :
  (forall t, _normalize_tag (Some (_normalize_tag t)) = _normalize_tag t) /\
  (forall t, _normalize_tag t <> EmptyString -> py_startswith_hash (_normalize_tag t) = true) /\
  (forall s1 s2, py_upper s1 = py_upper s2 -> _normalize_tag (Some s1) = _normalize_tag (Some s2)) /\
  (forall c z, char_isspace c = false -> Ascii.eqb c "#"%char = false ->
     _normalize_tag (Some (String "#" (String c z))) = _normalize_tag (Some (String c z))) /\
  (forall b p1 p2, _normalize_tag (Some p1) = _normalize_tag (Some p2) ->
     _participant_is_win_ranked_1v1 b p1 = _participant_is_win_ranked_1v1 b p2) /\
  (forall raw t, In t (top_player_tags raw) -> _normalize_tag (Some t) = t) /\
  (forall env raw tag dh c, In ((tag, dh), c) (player_decks_top (etl_scan env raw)) ->
     In tag (top_player_tags raw)).
Proof.
  split; [exact normalize_idem|]. split.
  { intros t Hne. destruct (normalize_out t) as [_ [H|H]]; [contradiction|exact H]. }
  split; [exact normalize_upper|]. split; [exact normalize_hash|].
  split; [exact win_normalized|]. split.
  - intros raw t H. now apply (top_tags_normal raw t).
  - intros env raw. apply player_keys_top.
Qed.

Lemma normalize_tag_canonical_witness :
  char_isspace "a"%char = false /\ Ascii.eqb "a"%char "#"%char = false /\
  _normalize_tag (Some (String "#" "abc")) = _normalize_tag (Some "abc") /\
  _normalize_tag (Some " aBc ") = "#ABC".
Proof.
  split; [reflexivity|]. split; [reflexivity|]. split.
  - apply (proj1 (proj2 (proj2 (proj2 normalize_tag_canonical)))); reflexivity.
  - vm_compute. reflexivity.
Defined.

(* ================================================================== *)
(** ** C4: counters *)

Lemma process_participant_eq (env : etl_env) (top : list string) (b : battle) (st : etl_state)
  (part : participant) (obs : list CardObs) :
  _normalize_tag (p_tag part) <> EmptyString ->
  _extract_8_cards (env_card_meta env) part = Some obs ->
  process_participant env top b st part
  = aggregate top (_normalize_tag (p_tag part)) (deck_hash_of obs)
      (resolve_type env (deck_hash_of obs) obs) obs
      (_participant_is_win_ranked_1v1 b (_normalize_tag (p_tag part))) st.
Proof.
  intros Ht Hx. unfold process_participant.
  destruct (String.eqb (_normalize_tag (p_tag part)) EmptyString) eqn:E.
  - apply String.eqb_eq in E. contradiction.
  - rewrite Hx. reflexivity.
Qed.

Lemma win_by_crowns (b : battle) (part other : participant) :
  sides_of b part other ->
  _normalize_tag (p_tag part) <> _normalize_tag (p_tag other) ->
  _participant_is_win_ranked_1v1 b (_normalize_tag (p_tag part))
  = (int_or0 (p_crowns other) <? int_or0 (p_crowns part))%Z.
Proof.
  intros Hs Hd. unfold _participant_is_win_ranked_1v1. rewrite normalize_idem.
  destruct Hs as [[-> ->]|[-> ->]].
  - rewrite String.eqb_refl. reflexivity.
  - destruct (String.eqb (_normalize_tag (p_tag part)) (_normalize_tag (p_tag other))) eqn:E.
    + apply String.eqb_eq in E. contradiction.
    + rewrite String.eqb_refl. reflexivity.
Qed.

Lemma NoDup_card_key (dtype : string) (obs : list CardObs) :
  List.NoDup (map obs_key obs) -> List.NoDup (map (card_key dtype) obs).
Proof.
  induction obs as [|c obs IH]; simpl; intros H; [constructor|].
  apply List.NoDup_cons_iff in H as [Hn H]. constructor; [|now apply IH].
  rewrite in_map_iff. intros [c' [Hk Hin]]. apply Hn. apply in_map_iff. exists c'.
  split; [|done]. unfold card_key, obs_key in *. congruence.
Qed.

Lemma bump_cards_other (d : list ((string * Z * string) * counter)) (dtype : string)
  (obs : list CardObs) (du dw : nat) (k : string * Z * string) :
  (forall c, In c obs -> k <> card_key dtype c) ->
  dict_get_default (bump_cards d dtype obs du dw) k counter0 = dict_get_default d k counter0.
Proof.
  unfold bump_cards. revert d. induction obs as [|c obs IH]; intros d Hk; simpl; [done|].
  rewrite IH by (intros c' Hc'; apply Hk; now right).
  rewrite bump_get. case_decide as E; [|done]. exfalso. apply (Hk c); [now left|exact E].
Qed.

Lemma bump_cards_hit (d : list ((string * Z * string) * counter)) (dtype : string)
  (obs : list CardObs) (du dw : nat) (c : CardObs) :
  List.NoDup (map (card_key dtype) obs) -> In c obs ->
  dict_get_default (bump_cards d dtype obs du dw) (card_key dtype c) counter0
  = {| uses := uses (dict_get_default d (card_key dtype c) counter0) + du;
       wins := wins (dict_get_default d (card_key dtype c) counter0) + dw |}.
Proof.
  revert d. induction obs as [|c0 obs IH]; intros d Hn Hin; [destruct Hin|].
  simpl in Hn. apply List.NoDup_cons_iff in Hn as [Hn0 Hn].
  destruct Hin as [->|Hin].
  - change (bump_cards d dtype (c :: obs) du dw)
      with (bump_cards (bump d (card_key dtype c) du dw) dtype obs du dw).
    rewrite bump_cards_other.
    + rewrite bump_get. case_decide; [reflexivity|congruence].
    + intros c' Hc' E. apply Hn0. rewrite E. now apply in_map.
  - change (bump_cards d dtype (c0 :: obs) du dw)
      with (bump_cards (bump d (card_key dtype c0) du dw) dtype obs du dw).
    rewrite IH by done. rewrite bump_get. case_decide as E; [|reflexivity].
    exfalso. apply Hn0. rewrite <- E. now apply in_map.
Qed.

Lemma bump_cards_ok (d : list ((string * Z * string) * counter)) (dtype : string)
  (obs : list CardObs) (du dw : nat) :
  counters_ok d -> (dw <= du)%nat -> counters_ok (bump_cards d dtype obs du dw).
Proof.
  intros Hd Hw. unfold bump_cards. apply fold_left_ind; [done|].
  intros d' c _ H. now apply bump_ok.
Qed.

Lemma b2n_le_1 (b : bool) : (b2n b <= 1)%nat.
Proof. destruct b; simpl; lia. Qed.

Lemma scan_counters_ok (env : etl_env) (raw : list (option string)) :
  all_counters_ok (etl_scan env raw).
Proof.
  apply etl_scan_ind.
  - repeat split; constructor.
  - intros st n H. exact H.
  - intros st mh H. exact H.
  - intros st b part obs (H1 & H2 & H3 & H4) _ _.
    pose proof (b2n_le_1 (_participant_is_win_ranked_1v1 b (_normalize_tag (p_tag part)))) as Hw.
    unfold aggregate, all_counters_ok. cbn [player_decks_top meta_deck_types meta_type_deck_ids meta_type_cards].
    repeat split.
    + destruct (existsb _ _); [now apply bump_ok|exact H1].
    + now apply bump_ok.
    + now apply bump_ok.
    + now apply bump_cards_ok.
Qed.

Lemma derive_counters_ok (st : etl_state) :
  counters_ok (player_decks_top st) -> counters_ok (derive_player_type_cards st).
Proof.
  intros Hpd. unfold derive_player_type_cards. apply fold_left_ind; [constructor|].
  intros acc [[ptag dh] rec] Hin Hacc.
  assert (Hr : counter_ok rec).
  { unfold counters_ok in Hpd. rewrite List.Forall_forall in Hpd. exact (Hpd _ Hin). }
  apply fold_left_ind; [exact Hacc|]. intros acc' c _ H. now apply bump_ok.
Qed.

(** C4. Every aggregate counter of a scan, and every counter derived from
    them, has [wins <= uses]. One aggregation of a valid (deck, participant,
    match) triple adds exactly one use to each meta counter it touches (the
    archetype, the archetype-deck pair and each of the deck's 8
    archetype-card entries), leaves the other counters alone, and adds one
    win exactly when the participant's crowns strictly exceed the other
    side's. A valid triple is one of a ranked 1v1 battle between two
    players, so the two sides' normalised tags differ. *)
Theorem counters_wins_le_uses_and_increments :
  (forall env raw,
     all_counters_ok (etl_scan env raw) /\
     counters_ok (derive_player_type_cards (etl_scan env raw))) /\
  (forall env top b part other st obs,
     sides_of b part other ->
     _normalize_tag (p_tag part) <> _normalize_tag (p_tag other) ->
     _normalize_tag (p_tag part) <> EmptyString ->
     _extract_8_cards (env_card_meta env) part = Some obs ->
     let st' := process_participant env top b st part in
     let dh := deck_hash_of obs in
     let dtype := resolve_type env dh obs in
     let dw := b2n (int_or0 (p_crowns other) <? int_or0 (p_crowns part))%Z in
     incremented (dict_get_default (meta_deck_types st) dtype counter0)
                 (dict_get_default (meta_deck_types st') dtype counter0) dw /\
     (forall k, k <> dtype ->
        dict_get_default (meta_deck_types st') k counter0
        = dict_get_default (meta_deck_types st) k counter0) /\
     incremented (dict_get_default (meta_type_deck_ids st) (dtype, dh) counter0)
                 (dict_get_default (meta_type_deck_ids st') (dtype, dh) counter0) dw /\
     (forall k, k <> (dtype, dh) ->
        dict_get_default (meta_type_deck_ids st') k counter0
        = dict_get_default (meta_type_deck_ids st) k counter0) /\
     (forall c, In c obs ->
        incremented (dict_get_default (meta_type_cards st) (dtype, card_id c, card_variant c) counter0)
                    (dict_get_default (meta_type_cards st') (dtype, card_id c, card_variant c) counter0) dw) /\
     (forall k, (forall c, In c obs -> k <> (dtype, card_id c, card_variant c)) ->
        dict_get_default (meta_type_cards st') k counter0
        = dict_get_default (meta_type_cards st) k counter0)).
Proof.
  split.
  { intros env raw. split; [apply scan_counters_ok|].
    apply derive_counters_ok, scan_counters_ok. }
  intros env top b part other st obs Hs Hd Ht Hx. cbv zeta.
  rewrite (process_participant_eq env top b st part obs Ht Hx), (win_by_crowns b part other Hs Hd).
  set (dtype := resolve_type env (deck_hash_of obs) obs).
  set (dw := b2n (int_or0 (p_crowns other) <? int_or0 (p_crowns part))%Z).
  assert (Hn : List.NoDup (map (card_key dtype) obs)).
  { apply NoDup_card_key.
    pose proof (extract_8_cards_cases (env_card_meta env) part) as Hspec.
    cbv zeta in Hspec. rewrite Hx in Hspec. tauto. }
  unfold aggregate. cbn [meta_deck_types meta_type_deck_ids meta_type_cards].
  split; [|split; [|split; [|split; [|split]]]].
  - unfold incremented. rewrite bump_get. case_decide; [|congruence]. split; reflexivity.
  - intros k Hk. rewrite bump_get. case_decide; [contradiction|reflexivity].
  - unfold incremented. rewrite bump_get. case_decide; [|congruence]. split; reflexivity.
  - intros k Hk. rewrite bump_get. case_decide; [contradiction|reflexivity].
  - intros c Hc. unfold incremented.
    change (dtype, card_id c, card_variant c) with (card_key dtype c).
    rewrite (bump_cards_hit _ dtype obs 1 dw c Hn Hc). split; reflexivity.
  - intros k Hk. apply bump_cards_other. exact Hk.
Qed.

Lemma counters_wins_le_uses_and_increments_witness :
  sides_of ex_battle (ex_part "#AAA" 3 26000000) (ex_part "#BBB" 1 27000000) /\
  _normalize_tag (p_tag (ex_part "#AAA" 3 26000000)) <> _normalize_tag (p_tag (ex_part "#BBB" 1 27000000)) /\
  _normalize_tag (p_tag (ex_part "#AAA" 3 26000000)) <> EmptyString /\
  _extract_8_cards (env_card_meta ex_env) (ex_part "#AAA" 3 26000000)
    = Some (ex_obs (ex_part "#AAA" 3 26000000)) /\
  incremented (dict_get_default (meta_deck_types etl_init) ARCHETYPE_HYBRID counter0)
    (dict_get_default (meta_deck_types (process_participant ex_env [] ex_battle etl_init
                                          (ex_part "#AAA" 3 26000000)))
       ARCHETYPE_HYBRID counter0) 1.
Proof.
  assert (Hs : sides_of ex_battle (ex_part "#AAA" 3 26000000) (ex_part "#BBB" 1 27000000)).
  { left. split; reflexivity. }
  assert (Hd : _normalize_tag (p_tag (ex_part "#AAA" 3 26000000))
               <> _normalize_tag (p_tag (ex_part "#BBB" 1 27000000))).
  { vm_compute. congruence. }
  assert (Ht : _normalize_tag (p_tag (ex_part "#AAA" 3 26000000)) <> EmptyString).
  { vm_compute. congruence. }
  assert (Hx : _extract_8_cards (env_card_meta ex_env) (ex_part "#AAA" 3 26000000)
               = Some (ex_obs (ex_part "#AAA" 3 26000000))).
  { vm_compute. reflexivity. }
  split; [exact Hs|]. split; [exact Hd|]. split; [exact Ht|]. split; [exact Hx|].
  pose proof (proj2 counters_wins_le_uses_and_increments ex_env [] ex_battle
                (ex_part "#AAA" 3 26000000) (ex_part "#BBB" 1 27000000) etl_init
                (ex_obs (ex_part "#AAA" 3 26000000)) Hs Hd Ht Hx) as H.
  cbv zeta in H. destruct H as [H _]. vm_compute in H. vm_compute. exact H.
Defined.

(* ================================================================== *)
(** ** C5: the player/card fan-out *)

Lemma extract_length (card_meta : card_meta_by_id) (part : participant) (obs : list CardObs) :
  _extract_8_cards card_meta part = Some obs -> length obs = 8%nat.
Proof.
  intros Hx. pose proof (extract_8_cards_cases card_meta part) as H. cbv zeta in H.
  rewrite Hx in H. tauto.
Qed.

Lemma scan_decks_stored (env : etl_env) (raw : list (option string)) :
  decks_stored (etl_scan env raw).
Proof.
  apply etl_scan_ind.
  - split; [done|split; [done|]]. intros ? ? ? [].
  - intros st n H. exact H.
  - intros st mh H. exact H.
  - intros st b part obs (H1 & H2 & H3) _ Hx.
    pose proof (extract_length _ _ _ Hx) as Hl.
    set (top := top_player_tags raw). set (tag := _normalize_tag (p_tag part)).
    set (dh := deck_hash_of obs). set (dtype := resolve_type env dh obs).
    set (won := _participant_is_win_ranked_1v1 b tag).
    assert (Hdh : forall st', deck_hash_to_cards st' = deck_hash_to_cards (aggregate top tag dh dtype obs won st) ->
              dict_get (deck_hash_to_cards st') dh <> None).
    { intros st' ->. unfold aggregate; cbn [deck_hash_to_cards].
      destruct (dict_get (deck_hash_to_type st) dh) as [x|] eqn:E.
      - intros Hc. apply H1 in Hc. congruence.
      - rewrite dict_get_set. case_decide; [discriminate|congruence]. }
    unfold decks_stored. split; [|split].
    + intros dh'. unfold aggregate; cbn [deck_hash_to_type deck_hash_to_cards].
      destruct (dict_get (deck_hash_to_type st) dh) as [x|] eqn:E; [apply H1|].
      rewrite !dict_get_set. case_decide; [split; discriminate|apply H1].
    + intros dh' os. unfold aggregate; cbn [deck_hash_to_cards].
      destruct (dict_get (deck_hash_to_type st) dh) as [x|] eqn:E; [apply H2|].
      rewrite dict_get_set. case_decide; [congruence|apply H2].
    + intros tag' dh' c Hin.
      assert (Hcards : forall dh0, dict_get (deck_hash_to_cards st) dh0 <> None ->
                dict_get (deck_hash_to_cards (aggregate top tag dh dtype obs won st)) dh0 <> None).
      { intros dh0 Hc. unfold aggregate; cbn [deck_hash_to_cards].
        destruct (dict_get (deck_hash_to_type st) dh) as [x|]; [exact Hc|].
        rewrite dict_get_set. case_decide; [discriminate|exact Hc]. }
      revert Hin. unfold aggregate at 1; cbn [player_decks_top].
      destruct (existsb _ _).
      * intros Hin. destruct (bump_In _ _ _ _ _ _ Hin) as [[= -> ->]|[c0 Hc0]].
        -- now apply Hdh.
        -- apply Hcards. eapply H3; eauto.
      * intros Hin. apply Hcards. eapply H3; eauto.
Qed.

(** Adding a deck's totals to each of its cards under fixed player and archetype. *)
Lemma fanout_cards_sum (p t ptag dt : string) (w : bool) (rec : counter) (os : list CardObs)
  (acc : list ((string * string * Z * string) * counter)) :
  player_type_card_total p t w
    (fold_left (fun acc c => bump acc (ptag, dt, card_id c, card_variant c) (uses rec) (wins rec)) os acc)
  = player_type_card_total p t w acc
    + length os * (if String.eqb ptag p && String.eqb dt t then sel w rec else 0).
Proof.
  revert acc. induction os as [|c os IH]; intros acc; cbn [fold_left length]; [lia|].
  rewrite IH. unfold player_type_card_total. rewrite sum_sel_bump. cbn beta iota.
  destruct (String.eqb ptag p && String.eqb dt t), w; simpl; lia.
Qed.

Lemma fanout_sum (st : etl_state) (p t : string) (w : bool)
  (l : list ((string * string) * counter)) (acc : list ((string * string * Z * string) * counter)) :
  (forall tag dh c, In ((tag, dh), c) l -> dict_get (deck_hash_to_cards st) dh <> None) ->
  (forall dh os, dict_get (deck_hash_to_cards st) dh = Some os -> length os = 8%nat) ->
  player_type_card_total p t w
    (fold_left
       (fun acc (e : (string * string) * counter) =>
          let '((ptag, dh), rec) := e in
          let dtype := dict_get_default (deck_hash_to_type st) dh ARCHETYPE_HYBRID in
          fold_left (fun acc c => bump acc (ptag, dtype, card_id c, card_variant c) (uses rec) (wins rec))
                    (dict_get_default (deck_hash_to_cards st) dh []) acc)
       l acc)
  = player_type_card_total p t w acc
    + 8 * sum_sel (fun '(p', dh) => String.eqb p' p
                     && String.eqb (dict_get_default (deck_hash_to_type st) dh ARCHETYPE_HYBRID) t) w l.
Proof.
  intros Hin Hlen. revert acc. induction l as [|[[ptag dh] rec] l IH]; intros acc; simpl; [lia|].
  rewrite IH by (intros; eapply Hin; right; eauto).
  rewrite fanout_cards_sum.
  assert (Hl : length (dict_get_default (deck_hash_to_cards st) dh []) = 8%nat).
  { unfold dict_get_default. destruct (dict_get (deck_hash_to_cards st) dh) as [os|] eqn:E.
    - eapply Hlen; eauto.
    - exfalso. eapply Hin; [now left|exact E]. }
  rewrite Hl. lia.
Qed.

(** C5. After a scan, for every player [p] and archetype [t], the per-card
    totals of [player_type_cards_top] for [(p, t)] are 8 times the totals
    of [player_decks_top] over [p]'s decks whose resolved archetype is [t],
    for uses ([w = false]) and for wins ([w = true]) alike. *)
Theorem player_card_fanout_sum (env : etl_env) (raw : list (option string)) (p t : string) (w : bool) :
  player_type_card_total p t w (derive_player_type_cards (etl_scan env raw))
  = 8 * player_type_deck_total (etl_scan env raw) p t w.
Proof.
  destruct (scan_decks_stored env raw) as (_ & H2 & H3).
  exact (fanout_sum (etl_scan env raw) p t w _ [] H3 H2).
Qed.

(* ================================================================== *)
(** ** C1 and C7: the match fingerprint depends on which side is which *)

(** C1 (code bug). [match_hash] is not side-invariant: the ranked 1v1
    record [ex_battle] and the same record with team and opponent swapped
    (same tags, same crowns on each side) serialise the payload with the
    sides under different keys, and their hashes differ. *)
Theorem match_hash_not_side_invariant :
  is_ranked_1v1_battle ex_battle = true /\
  is_ranked_1v1_battle (swap_sides ex_battle) = true /\
  match_hash ex_battle = "3ccde960f517c58165bc76a847b74c32640bba49" /\
  match_hash (swap_sides ex_battle) = "b3c206f04e37ef3f6a23a9b23bf36d5f4a8d7c09" /\
  match_hash (swap_sides ex_battle) <> match_hash ex_battle.
Proof.
  split; [vm_compute; reflexivity|]. split; [vm_compute; reflexivity|].
  split; [vm_compute; reflexivity|]. split; [vm_compute; reflexivity|].
  vm_compute. discriminate.
Qed.

(** C7 (code bug). A run over the top players ["#AAA"] and ["#BBB"], whose
    logs hold the same ranked match seen from each side, counts it twice:
    two deduplicated matches, 4 uses of the archetype (2 per match are
    expected), and one entry per player that doubles its uses. *)
Theorem scan_counts_swapped_match_twice :
  env_battlelog ex_env "#AAA" = Some [ex_battle] /\
  env_battlelog ex_env "#BBB" = Some [swap_sides ex_battle] /\
  top_player_tags [Some "#AAA"; Some "bbb"] = ["#AAA"; "#BBB"] /\
  deduped_matches (etl_scan ex_env [Some "#AAA"; Some "bbb"]) = 2%nat /\
  meta_deck_types (etl_scan ex_env [Some "#AAA"; Some "bbb"])
  = [(ARCHETYPE_HYBRID, {| uses := 4; wins := 2 |})] /\
  map (fun e => (e.1.1, e.2)) (player_decks_top (etl_scan ex_env [Some "#AAA"; Some "bbb"]))
  = [("#AAA", {| uses := 2; wins := 2 |}); ("#BBB", {| uses := 2; wins := 0 |})].
Proof.
  split; [reflexivity|]. split; [reflexivity|].
  repeat split; vm_compute; reflexivity.
Qed.

(* ================================================================== *)
(** ** battle_filters.py: result, normalisation and the ranked filter *)

Lemma compute_result_cases (t o : Z) :
  ((o < t)%Z /\ _compute_result t o = "win") \/
  ((t < o)%Z /\ _compute_result t o = "loss") \/
  (t = o /\ _compute_result t o = "draw").
Proof.
  unfold _compute_result.
  destruct (Z.lt_trichotomy t o) as [H|[H|H]].
  - right; left. split; [done|].
    replace (o <? t)%Z with false by (symmetry; apply Z.ltb_ge; lia).
    replace (t <? o)%Z with true by (symmetry; apply Z.ltb_lt; lia). done.
  - right; right. split; [done|]. subst. rewrite Z.ltb_irrefl. done.
  - left. split; [done|]. replace (o <? t)%Z with true by (symmetry; apply Z.ltb_lt; lia). done.
Qed.

Lemma compute_result_swap (t o : Z) : _compute_result o t = flip_result (_compute_result t o).
Proof.
  destruct (compute_result_cases t o) as [[H E]|[[H E]|[H E]]];
  destruct (compute_result_cases o t) as [[H' E']|[[H' E']|[H' E']]];
  rewrite E, E'; try lia; reflexivity.
Qed.

Lemma is_ranked_swap (b : battle) : is_ranked_1v1_battle (swap_sides b) = is_ranked_1v1_battle b.
Proof.
  unfold is_ranked_1v1_battle, swap_sides; cbn [b_team b_opponent b_gameMode_id].
  destruct (length (b_team b) =? 1)%nat, (length (b_opponent b) =? 1)%nat; reflexivity.
Qed.

Lemma stripped_py_strip (s : string) : stripped (py_strip s).
Proof. split; [apply py_strip_no_lead|apply py_strip_no_trail]. Qed.

Lemma side_card_names_shape (cards : list card_entry) :
  Forall stripped (side_card_names cards) /\ (length (side_card_names cards) <= length cards)%nat.
Proof.
  induction cards as [|c cs [IH1 IH2]]; simpl; [split; [constructor|lia]|].
  destruct c as [|id [nm|] lvl]; simpl; try (split; [done|lia]).
  destruct (String.eqb nm EmptyString); simpl; [split; [done|lia]|].
  split; [constructor; [apply stripped_py_strip|done]|lia].
Qed.

(** [_compute_result(team_crowns, opp_crowns)] is ["win"] exactly when the
    team has more crowns, ["loss"] exactly when it has fewer and ["draw"]
    exactly when they are equal; exchanging the two arguments exchanges
    ["win"] and ["loss"] and keeps ["draw"]. *)
Theorem compute_result_spec (t o : Z) :
  (_compute_result t o = "win" <-> (o < t)%Z) /\
  (_compute_result t o = "loss" <-> (t < o)%Z) /\
  (_compute_result t o = "draw" <-> t = o) /\
  _compute_result o t = flip_result (_compute_result t o).
Proof.
  split; [|split; [|split]]; [| | |apply compute_result_swap];
  destruct (compute_result_cases t o) as [[H E]|[[H E]|[H E]]]; rewrite E;
  split; intros; try done; lia.
Qed.

(** [normalize_battle] of the same record seen from the other side (team
    and opponent exchanged) is the normalised record with [my_cards] and
    [opp_cards] exchanged, ["win"] and ["loss"] exchanged, and the same
    [battle_time] and [mode_name]. *)
Theorem normalize_battle_swap (b : battle) :
  normalize_battle (swap_sides b) = flip_normalized (normalize_battle b).
Proof.
  unfold normalize_battle, flip_normalized, swap_sides; cbn.
  rewrite compute_result_swap. reflexivity.
Qed.

(** The card lists of [normalize_battle] hold names without surrounding
    white space, at most one per raw card entry of the side's first
    participant. *)
Theorem normalize_battle_cards_shape (b : battle) :
  Forall stripped (nb_my_cards (normalize_battle b)) /\
  Forall stripped (nb_opp_cards (normalize_battle b)) /\
  (length (nb_my_cards (normalize_battle b))
     <= match b_team b with p :: _ => length (p_cards p) | [] => 0 end)%nat /\
  (length (nb_opp_cards (normalize_battle b))
     <= match b_opponent b with p :: _ => length (p_cards p) | [] => 0 end)%nat.
Proof.
  unfold normalize_battle; cbn [nb_my_cards nb_opp_cards]. unfold side_cards.
  destruct (b_team b) as [|p ps], (b_opponent b) as [|q qs];
  repeat match goal with
         | |- _ /\ _ => split
         | |- Forall _ [] => constructor
         | |- (length [] <= _)%nat => simpl; lia
         | |- Forall _ (side_card_names ?c) => apply (side_card_names_shape c)
         | |- (length (side_card_names ?c) <= _)%nat => apply (side_card_names_shape c)
         end.
Qed.

(** [filter_and_normalize_ranked_1v1] works battle by battle: on a
    concatenation it is the concatenation of its results, it returns at
    most one record per battle, and on the logs with every battle seen
    from the other side it returns the flipped records. *)
Theorem filter_and_normalize_compose (l1 l2 : list battle) :
  filter_and_normalize_ranked_1v1 (l1 ++ l2)%list
  = (filter_and_normalize_ranked_1v1 l1 ++ filter_and_normalize_ranked_1v1 l2)%list /\
  (length (filter_and_normalize_ranked_1v1 l1) <= length l1)%nat /\
  filter_and_normalize_ranked_1v1 (map swap_sides l1)
  = map flip_normalized (filter_and_normalize_ranked_1v1 l1).
Proof.
  unfold filter_and_normalize_ranked_1v1. split; [|split].
  - rewrite List.filter_app, map_app. reflexivity.
  - rewrite length_map. apply List.filter_length_le.
  - induction l1 as [|b l IH]; simpl; [done|]. rewrite is_ranked_swap.
    destruct (is_ranked_1v1_battle b); simpl; [|done].
    rewrite IH, normalize_battle_swap. reflexivity.
Qed.

(* ================================================================== *)
(** ** Loaded tables: card metadata and deck type overrides *)

Lemma last_with_app_one {A} (p : A -> bool) (l : list A) (x : A) :
  last_with p (l ++ [x])%list = if p x then Some x else last_with p l.
Proof. unfold last_with. rewrite fold_left_app. reflexivity. Qed.

Lemma dict_set_keys {K V} `{EqDecision K} (d : list (K * V)) (k : K) (v : V) (k' : K) :
  In k' (map fst (dict_set d k v)) <-> k' = k \/ In k' (map fst d).
Proof.
  induction d as [|[k0 v0] d IH]; simpl; [firstorder congruence|].
  destruct (decide (k = k0)) as [<-|Hk]; simpl; [firstorder congruence|].
  rewrite IH. firstorder congruence.
Qed.

Lemma dict_set_NoDup {K V} `{EqDecision K} (d : list (K * V)) (k : K) (v : V) :
  List.NoDup (map fst d) -> List.NoDup (map fst (dict_set d k v)).
Proof.
  induction d as [|[k0 v0] d IH]; simpl; intros H; [repeat constructor; intros []|].
  apply List.NoDup_cons_iff in H as [Hn H].
  destruct (decide (k = k0)) as [<-|Hk]; simpl; constructor; auto.
  rewrite dict_set_keys. intros [->|?]; [congruence|done].
Qed.

Lemma load_card_metadata_get (data : list meta_row) (k : string) :
  dict_get (load_card_metadata data) k = last_with (fun r => String.eqb (row_key r) k) data.
Proof.
  unfold load_card_metadata. induction data as [|x l IH] using rev_ind; [done|].
  rewrite fold_left_app, last_with_app_one. simpl. rewrite dict_get_set, IH.
  destruct (String.eqb (row_key x) k) eqn:E.
  - apply String.eqb_eq in E. subst. case_decide; congruence.
  - apply String.eqb_neq in E. case_decide; congruence.
Qed.

Lemma load_card_metadata_NoDup (data : list meta_row) :
  List.NoDup (map fst (load_card_metadata data)).
Proof.
  unfold load_card_metadata. apply fold_left_ind; [constructor|].
  intros d r _ H. now apply dict_set_NoDup.
Qed.

Lemma load_overrides_get (rows : list (option string * option string)) (dh : string) :
  dict_get (load_deck_type_overrides rows) dh
  = match last_with (override_row_for dh) rows with Some (_, Some t) => Some t | _ => None end.
Proof.
  unfold load_deck_type_overrides. induction rows as [|x l IH] using rev_ind; [done|].
  rewrite fold_left_app, last_with_app_one. simpl.
  destruct x as [[d|] [t|]]; simpl; try exact IH.
  destruct (String.eqb d EmptyString) eqn:Ed, (String.eqb t EmptyString) eqn:Et;
    rewrite ?andb_false_r; simpl; try exact IH.
  rewrite dict_get_set, IH, !andb_true_r.
  destruct (String.eqb d dh) eqn:E.
  - apply String.eqb_eq in E. subst. case_decide; [reflexivity|congruence].
  - apply String.eqb_neq in E. case_decide; [congruence|reflexivity].
Qed.

Lemma load_overrides_nonempty (rows : list (option string * option string)) (dh t : string) :
  dict_get (load_deck_type_overrides rows) dh = Some t -> t <> EmptyString.
Proof.
  rewrite load_overrides_get.
  destruct (last_with (override_row_for dh) rows) as [r|] eqn:E; [|discriminate].
  unfold last_with in E.
  assert (Hp : forall acc, (forall r, acc = Some r -> override_row_for dh r = true) ->
            forall r, fold_left (fun acc x => if override_row_for dh x then Some x else acc) rows acc = Some r ->
            override_row_for dh r = true).
  { clear E. induction rows as [|x l IH]; simpl; intros acc Hacc r'; [apply Hacc|].
    apply IH. intros r'' Hr''. destruct (override_row_for dh x) eqn:Ex; [congruence|auto]. }
  pose proof (Hp None ltac:(intros ? ?; discriminate) r E) as Hr.
  destruct r as [[d|] [t'|]]; simpl in Hr; try discriminate.
  intros [= <-] ->. rewrite String.eqb_refl, !andb_false_r in Hr. discriminate.
Qed.

(** [load_card_metadata] keys each row by [str(row.get("id"))] with one
    entry per key: looking a key up gives the last row of the file with
    that key (a later row replaces an earlier one, rows without [id] all
    share the key ["None"]). *)
Theorem load_card_metadata_last_row (data : list meta_row) (k : string) :
  dict_get (load_card_metadata data) k = last_with (fun r => String.eqb (row_key r) k) data /\
  List.NoDup (map fst (load_card_metadata data)).
Proof. split; [apply load_card_metadata_get|apply load_card_metadata_NoDup]. Qed.

(** [card_name_from_id] on the loaded metadata returns a name exactly when
    the last row for the key has a non-empty [name], and the name it
    returns has no surrounding white space. *)
Theorem card_name_from_id_loaded (data : list meta_row) (k : string) :
  (card_name_from_id_dict (load_card_metadata data) k <> None <->
   exists r nm, last_with (fun r => String.eqb (row_key r) k) data = Some r /\
                row_name r = Some nm /\ nm <> EmptyString) /\
  (forall nm, card_name_from_id_dict (load_card_metadata data) k = Some nm -> stripped nm).
Proof.
  unfold card_name_from_id_dict. rewrite load_card_metadata_get.
  destruct (last_with _ data) as [r|].
  - destruct (row_name r) as [nm|] eqn:Hr.
    + destruct (String.eqb nm EmptyString) eqn:E.
      * apply String.eqb_eq in E. split; [|discriminate].
        split; [done|]. intros (r' & nm' & [= <-] & Hr' & Hn). congruence.
      * apply String.eqb_neq in E. split.
        -- split; [intros _; eauto|discriminate].
        -- intros nm' [= <-]. apply stripped_py_strip.
    + split; [|discriminate]. split; [done|]. intros (r' & nm' & [= <-] & Hr' & _). congruence.
  - split; [|discriminate]. split; [done|]. intros (r' & nm' & Hr & _). discriminate.
Qed.

(** [load_deck_type_overrides] maps a deck hash to the type of the last
    row where both columns are non-empty for that hash; every stored type
    is non-empty. *)
Theorem load_deck_type_overrides_last_row (rows : list (option string * option string)) (dh : string) :
  dict_get (load_deck_type_overrides rows) dh
  = match last_with (override_row_for dh) rows with Some (_, Some t) => Some t | _ => None end /\
  (forall t, dict_get (load_deck_type_overrides rows) dh = Some t -> t <> EmptyString).
Proof.
  split; [apply load_overrides_get|]. intros t. apply load_overrides_nonempty.
Qed.

(** In [main] a deck's type is the override loaded for its hash when
    there is one, and the classifier's label otherwise. *)
Theorem resolve_type_loaded_overrides (cm : card_meta_by_id) (bn : card_meta_by_name)
  (bl : string -> option (list battle)) (rows : list (option string * option string))
  (dh : string) (obs : list CardObs) :
  resolve_type {| env_card_meta := cm; env_meta_by_name := bn;
                  env_overrides := load_deck_type_overrides rows; env_battlelog := bl |} dh obs
  = match last_with (override_row_for dh) rows with
    | Some (_, Some t) => t
    | _ => classify_deck bn (names_for_classifier obs)
    end.
Proof.
  unfold resolve_type; cbn [env_overrides env_meta_by_name].
  pose proof (load_overrides_nonempty rows dh) as Hne.
  rewrite load_overrides_get in *.
  destruct (last_with (override_row_for dh) rows) as [[d [t|]]|]; try reflexivity.
  simpl. specialize (Hne t eq_refl). destruct (String.eqb t EmptyString) eqn:E; [|done].
  apply String.eqb_eq in E. contradiction.
Qed.

(* ================================================================== *)
(** ** Extraction shape and the scan's tables *)

Lemma stripped_empty : stripped EmptyString.
Proof. split; exact I. Qed.

Lemma card_name_from_id_stripped (cm : card_meta_by_id) (cid : Z) (n : string) :
  card_name_from_id cm cid = Some n -> stripped n.
Proof.
  unfold card_name_from_id. destruct (cm cid) as [nm|]; [|discriminate].
  destruct (String.eqb nm EmptyString); [discriminate|]. intros [= <-]. apply stripped_py_strip.
Qed.

Lemma variant_in (lvl : option Z) : In (card_variant_from_evolution_level lvl) VARIANTS.
Proof.
  unfold card_variant_from_evolution_level, VARIANTS.
  destruct (int_or0 lvl =? 1)%Z; [now left|]. destruct (int_or0 lvl =? 2)%Z; simpl; auto.
Qed.

Lemma build_obs_shape (cm : card_meta_by_id) (idx : nat) (cards : list card_entry) (out : list CardObs) :
  build_obs cm idx cards = Some out ->
  map slot out = seq idx (length cards) /\
  Forall (fun o => stripped (card_name o)) out /\
  Forall (fun o => In (card_variant o) VARIANTS) out /\
  map (fun o => Some (card_id o)) out = map entry_id cards.
Proof.
  revert idx out. induction cards as [|c cs IH]; intros idx out H; simpl in H.
  - injection H as <-. simpl. split; [done|split; [constructor|split; [constructor|done]]].
  - destruct c as [|[cid|] nm lvl]; try discriminate.
    destruct (build_obs cm (S idx) cs) as [out'|] eqn:E; [|discriminate].
    injection H as <-. destruct (IH (S idx) out' E) as (H1 & H2 & H3 & H4).
    cbn [map length seq slot card_name card_variant card_id entry_id].
    split; [f_equal; exact H1|]. split; [constructor; [|exact H2]|].
    + destruct (String.eqb (py_strip (str_or nm EmptyString)) EmptyString).
      * destruct (card_name_from_id cm cid) as [n|] eqn:En;
          [eapply card_name_from_id_stripped; eauto|apply stripped_empty].
      * apply stripped_py_strip.
    + split; [constructor; [apply variant_in|exact H3]|]. f_equal; exact H4.
Qed.

Lemma extract_obs_shape (cm : card_meta_by_id) (part : participant) (out : list CardObs) :
  _extract_8_cards cm part = Some out ->
  map slot out = seq 1 8 /\ Forall (fun o => stripped (card_name o)) out /\
  Forall (fun o => In (card_variant o) VARIANTS) out /\
  map (fun o => Some (card_id o)) out = map entry_id (firstn 8 (p_cards part)).
Proof.
  intros Hx. pose proof (extract_8_cards_cases cm part) as H. cbv zeta in H. rewrite Hx in H.
  destruct H as (Hl & _ & Hb & _). destruct (build_obs_shape _ _ _ _ Hb) as (H1 & H2 & H3 & H4).
  rewrite length_firstn, Nat.min_l in H1 by exact Hl. auto.
Qed.

Lemma extract_stored_deck (cm : card_meta_by_id) (part : participant) (obs : list CardObs) :
  _extract_8_cards cm part = Some obs -> stored_deck (deck_hash_of obs) obs.
Proof.
  intros Hx. pose proof (extract_8_cards_cases cm part) as H. cbv zeta in H. rewrite Hx in H.
  destruct H as (_ & _ & _ & Hlen & Hnd & _).
  split; [done|split; [done|split; [done|]]]. apply (extract_obs_shape cm part obs Hx).
Qed.

Lemma store_cards_dim_ok (dim : list (Z * string)) (obs : list CardObs) :
  Forall (fun o => stripped (card_name o)) obs ->
  (forall cid nm, In (cid, nm) dim -> nm <> EmptyString /\ stripped nm) ->
  forall cid nm, In (cid, nm) (store_cards_dim dim obs) -> nm <> EmptyString /\ stripped nm.
Proof.
  intros Hs Hd. unfold store_cards_dim.
  apply (fold_left_ind (fun d => forall cid nm, In (cid, nm) d -> nm <> EmptyString /\ stripped nm));
    [exact Hd|].
  intros d c Hc H cid nm. destruct (String.eqb (card_name c) EmptyString) eqn:E; [exact (H cid nm)|].
  intros Hin. destruct (dict_set_In _ _ _ _ _ Hin) as [[-> ->]|Hin']; [|exact (H cid nm Hin')].
  split; [now apply String.eqb_neq|]. rewrite List.Forall_forall in Hs. now apply Hs.
Qed.

Lemma scan_deck_tables_ok (env : etl_env) (raw : list (option string)) :
  deck_tables_ok env (etl_scan env raw).
Proof.
  apply etl_scan_ind.
  - split; [done|split; [done|split; [done|]]]. intros ? ? [].
  - intros st n H. exact H.
  - intros st mh H. exact H.
  - intros st b part obs (H1 & H2 & H3 & H4) _ Hx.
    pose proof (extract_stored_deck _ _ _ Hx) as Hsd.
    pose proof (extract_obs_shape _ _ _ Hx) as (_ & Hnames & _).
    set (dh := deck_hash_of obs) in *.
    unfold aggregate, deck_tables_ok; cbn [deck_hash_to_type deck_hash_to_cards cards_dim].
    split; [|split; [|split]].
    + intros dh' os. destruct (dict_get (deck_hash_to_type st) dh) as [x|] eqn:E; [apply H1|].
      rewrite dict_get_set. case_decide as Hd; [intros [= <-]; subst dh'; exact Hsd|apply H1].
    + intros dh' t. destruct (dict_get (deck_hash_to_type st) dh) as [x|] eqn:E; [apply H2|].
      rewrite !dict_get_set. case_decide as Hd.
      * intros [= <-]. exists obs. subst dh'. split; reflexivity.
      * apply H2.
    + intros dh'. destruct (dict_get (deck_hash_to_type st) dh) as [x|] eqn:E; [apply H3|].
      rewrite !dict_get_set. case_decide; [split; discriminate|apply H3].
    + now apply store_cards_dim_ok.
Qed.

Lemma aggregate_keeps_deck (top : list string) (tag dh dtype : string) (obs : list CardObs)
  (won : bool) (st : etl_state) (dh0 t : string) (os : list CardObs) :
  dict_get (deck_hash_to_type st) dh0 = Some t -> dict_get (deck_hash_to_cards st) dh0 = Some os ->
  dict_get (deck_hash_to_type (aggregate top tag dh dtype obs won st)) dh0 = Some t /\
  dict_get (deck_hash_to_cards (aggregate top tag dh dtype obs won st)) dh0 = Some os.
Proof.
  intros Ht Hc. unfold aggregate; cbn [deck_hash_to_type deck_hash_to_cards].
  destruct (dict_get (deck_hash_to_type st) dh) as [x|] eqn:E; [done|].
  rewrite !dict_get_set. case_decide; [subst; congruence|done].
Qed.

Lemma process_battle_keeps_deck (env : etl_env) (top : list string) (st : etl_state) (b : battle)
  (dh : string) (t : string) (os : list CardObs) :
  dict_get (deck_hash_to_type st) dh = Some t -> dict_get (deck_hash_to_cards st) dh = Some os ->
  dict_get (deck_hash_to_type (process_battle env top st b)) dh = Some t /\
  dict_get (deck_hash_to_cards (process_battle env top st b)) dh = Some os.
Proof.
  intros Ht Hc. unfold process_battle.
  destruct (negb (is_ranked_1v1_battle b)); [done|].
  destruct (existsb _ _); [done|].
  destruct (b_team b) as [|t0 [|? ?]], (b_opponent b) as [|o0 [|? ?]]; try (split; assumption).
  apply (fold_left_ind (fun st' => dict_get (deck_hash_to_type st') dh = Some t /\
                                   dict_get (deck_hash_to_cards st') dh = Some os)); [done|].
  intros st' part _ [H1 H2]. unfold process_participant.
  destruct (String.eqb _ EmptyString); [done|].
  destruct (_extract_8_cards _ _); [|done]. now apply aggregate_keeps_deck.
Qed.

Lemma bump_cards_sum (P : string * Z * string -> bool) (w : bool)
  (d : list ((string * Z * string) * counter)) (dtype : string) (obs : list CardObs) (du dw : nat)
  (pb : bool) :
  (forall c, P (dtype, card_id c, card_variant c) = pb) ->
  sum_sel P w (bump_cards d dtype obs du dw)
  = sum_sel P w d + length obs * (if pb then (if w then dw else du) else 0).
Proof.
  intros HP. unfold bump_cards. revert d.
  induction obs as [|c obs IH]; intros d; cbn [fold_left length]; [lia|].
  rewrite IH, sum_sel_bump, HP. destruct pb, w; lia.
Qed.

Lemma scan_meta_consistent (env : etl_env) (raw : list (option string)) :
  forall t w,
  type_deck_total (etl_scan env raw) t w
  = sel w (dict_get_default (meta_deck_types (etl_scan env raw)) t counter0) /\
  type_card_total (etl_scan env raw) t w
  = 8 * sel w (dict_get_default (meta_deck_types (etl_scan env raw)) t counter0).
Proof.
  apply etl_scan_ind.
  - intros t w. destruct w; split; reflexivity.
  - intros st n H. exact H.
  - intros st mh H. exact H.
  - intros st b part obs H _ Hx t w.
    pose proof (extract_length _ _ _ Hx) as Hl. destruct (H t w) as [Hd Hc].
    unfold type_deck_total, type_card_total in *.
    unfold aggregate; cbn [meta_type_deck_ids meta_type_cards meta_deck_types].
    set (dtype := resolve_type env (deck_hash_of obs) obs).
    set (dw := b2n (_participant_is_win_ranked_1v1 b (_normalize_tag (p_tag part)))).
    rewrite sum_sel_bump, (bump_cards_sum _ _ _ _ _ _ _ (String.eqb dtype t)) by reflexivity.
    rewrite bump_get, Hl. cbn beta iota.
    destruct (String.eqb dtype t) eqn:E.
    + apply String.eqb_eq in E. rewrite E in *. rewrite decide_True by reflexivity.
      rewrite Hd, Hc. unfold dict_get_default. destruct w; simpl; lia.
    + apply String.eqb_neq in E. rewrite decide_False by congruence. lia.
Qed.

Lemma process_participant_counts (env : etl_env) (top : list string) (b : battle)
  (st : etl_state) (part : participant) :
  seen_matches (process_participant env top b st part) = seen_matches st /\
  scanned_entries (process_participant env top b st part) = scanned_entries st /\
  deduped_matches (process_participant env top b st part) = deduped_matches st.
Proof.
  unfold process_participant. destruct (String.eqb _ EmptyString); [done|].
  destruct (_extract_8_cards _ _); [|done]. split; [|split]; reflexivity.
Qed.

Lemma process_battle_counts (env : etl_env) (top : list string) (st : etl_state) (b : battle) :
  scanned_entries (process_battle env top st b) = scanned_entries st /\
  ((seen_matches (process_battle env top st b) = seen_matches st /\
    deduped_matches (process_battle env top st b) = deduped_matches st) \/
   (exists mh, ~ In mh (seen_matches st) /\
      seen_matches (process_battle env top st b) = mh :: seen_matches st /\
      deduped_matches (process_battle env top st b) = S (deduped_matches st))).
Proof.
  unfold process_battle.
  destruct (negb (is_ranked_1v1_battle b)); [split; [done|now left]|].
  destruct (existsb (String.eqb (match_hash b)) (seen_matches st)) eqn:Hs; [split; [done|now left]|].
  assert (Hn : ~ In (match_hash b) (seen_matches st)).
  { intros Hin. assert (existsb (String.eqb (match_hash b)) (seen_matches st) = true) as Ht.
    { apply existsb_exists. exists (match_hash b). split; [exact Hin|apply String.eqb_refl]. }
    congruence. }
  assert (Hf : forall st', seen_matches st' = match_hash b :: seen_matches st ->
             scanned_entries st' = scanned_entries st -> deduped_matches st' = S (deduped_matches st) ->
             scanned_entries st' = scanned_entries st /\
             ((seen_matches st' = seen_matches st /\ deduped_matches st' = deduped_matches st) \/
              (exists mh, ~ In mh (seen_matches st) /\ seen_matches st' = mh :: seen_matches st /\
                          deduped_matches st' = S (deduped_matches st)))).
  { intros st' H1 H2 H3. split; [exact H2|]. right. exists (match_hash b). auto. }
  destruct (b_team b) as [|t0 [|? ?]], (b_opponent b) as [|o0 [|? ?]]; try (apply Hf; reflexivity).
  assert (Hp : forall l, let st' := fold_left (process_participant env top b) l (mark_seen (match_hash b) st) in
            seen_matches st' = match_hash b :: seen_matches st /\
            scanned_entries st' = scanned_entries st /\ deduped_matches st' = S (deduped_matches st)).
  { intros l. apply (fold_left_ind (fun st' => seen_matches st' = match_hash b :: seen_matches st /\
           scanned_entries st' = scanned_entries st /\ deduped_matches st' = S (deduped_matches st))).
    - split; [|split]; reflexivity.
    - intros st' part _ (H1 & H2 & H3).
      destruct (process_participant_counts env top b st' part) as (E1 & E2 & E3).
      rewrite E1, E2, E3. auto. }
  destruct (Hp [t0; o0]) as (H1 & H2 & H3). now apply Hf.
Qed.

Lemma battles_counts (env : etl_env) (top : list string) (bs : list battle) (st : etl_state) :
  List.NoDup (seen_matches st) -> deduped_matches st = length (seen_matches st) ->
  List.NoDup (seen_matches (fold_left (process_battle env top) bs st)) /\
  deduped_matches (fold_left (process_battle env top) bs st)
  = length (seen_matches (fold_left (process_battle env top) bs st)) /\
  (deduped_matches (fold_left (process_battle env top) bs st) <= deduped_matches st + length bs)%nat /\
  scanned_entries (fold_left (process_battle env top) bs st) = scanned_entries st.
Proof.
  revert st. induction bs as [|b bs IH]; intros st Hn Hd; cbn [fold_left length].
  { split; [done|split; [done|split; [lia|done]]]. }
  destruct (process_battle_counts env top st b) as [Hs [[E1 E2]|(mh & Hm & E1 & E2)]].
  - destruct (IH (process_battle env top st b)) as (A & B & C & D); [congruence|congruence|].
    split; [done|split; [done|split; [lia|congruence]]].
  - destruct (IH (process_battle env top st b)) as (A & B & C & D).
    + rewrite E1. now constructor.
    + rewrite E1, E2, Hd. reflexivity.
    + split; [done|split; [done|split; [lia|congruence]]].
Qed.

Lemma players_counts (env : etl_env) (top : list string) (l : list string) (st : etl_state) :
  List.NoDup (seen_matches st) -> deduped_matches st = length (seen_matches st) ->
  (deduped_matches st <= scanned_entries st)%nat ->
  List.NoDup (seen_matches (fold_left (process_player env top) l st)) /\
  deduped_matches (fold_left (process_player env top) l st)
  = length (seen_matches (fold_left (process_player env top) l st)) /\
  (deduped_matches (fold_left (process_player env top) l st)
   <= scanned_entries (fold_left (process_player env top) l st))%nat /\
  scanned_entries (fold_left (process_player env top) l st)
  = scanned_entries st + list_sum (map (log_length env) l).
Proof.
  revert st. induction l as [|p l IH]; intros st Hn Hd Hle; cbn [fold_left map list_sum fold_right].
  { split; [done|split; [done|split; [done|lia]]]. }
  unfold log_length at 1.
  destruct (env_battlelog env p) as [bs|] eqn:Eb.
  - assert (Ep : process_player env top st p
                 = fold_left (process_battle env top) bs (add_scanned (length bs) st))
      by (unfold process_player; rewrite Eb; reflexivity).
    rewrite Ep.
    destruct (battles_counts env top bs (add_scanned (length bs) st)) as (A & B & C & D);
      [exact Hn|exact Hd|].
    change (deduped_matches (add_scanned (length bs) st)) with (deduped_matches st) in C.
    change (scanned_entries (add_scanned (length bs) st)) with (scanned_entries st + length bs)%nat in D.
    destruct (IH (fold_left (process_battle env top) bs (add_scanned (length bs) st))) as (A' & B' & C' & D');
      [done|done|lia|].
    split; [done|split; [done|split; [done|]]]. rewrite D', D. unfold list_sum in *. lia.
  - assert (Ep : process_player env top st p = st) by (unfold process_player; rewrite Eb; reflexivity).
    rewrite Ep. destruct (IH st) as (A & B & C & D); [done|done|done|].
    split; [done|split; [done|split; [done|]]]. rewrite D. unfold list_sum in *. lia.
Qed.

(** [_extract_8_cards] numbers its cards 1 to 8 in the order of the raw
    list, keeps the identifiers of the first 8 raw entries, gives each a
    variant among ["evo"], ["hero"] and ["normal"], and stores names
    without surrounding white space (possibly empty). *)
Theorem extract_8_cards_shape (cm : card_meta_by_id) (part : participant) (out : list CardObs) :
  _extract_8_cards cm part = Some out ->
  map slot out = seq 1 8 /\ Forall (fun o => stripped (card_name o)) out /\
  Forall (fun o => In (card_variant o) VARIANTS) out /\
  map (fun o => Some (card_id o)) out = map entry_id (firstn 8 (p_cards part)).
Proof. exact (extract_obs_shape cm part out). Qed.

Lemma extract_8_cards_shape_witness :
  _extract_8_cards ex_no_card_meta ex_part_unnamed = Some ex_obs_unnamed /\
  map slot ex_obs_unnamed = seq 1 8 /\ Forall (fun o => stripped (card_name o)) ex_obs_unnamed /\
  Forall (fun o => In (card_variant o) VARIANTS) ex_obs_unnamed /\
  map (fun o => Some (card_id o)) ex_obs_unnamed = map entry_id (firstn 8 (p_cards ex_part_unnamed)).
Proof.
  assert (Hx : _extract_8_cards ex_no_card_meta ex_part_unnamed = Some ex_obs_unnamed)
    by (vm_compute; reflexivity).
  split; [exact Hx|]. exact (extract_8_cards_shape ex_no_card_meta ex_part_unnamed ex_obs_unnamed Hx).
Defined.

(** After a scan, [seen_matches] holds no hash twice, [deduped_matches] is
    its size and never exceeds [scanned_entries], and [scanned_entries]
    is the total length of the battle logs fetched for the top players
    (ranked or not, duplicated or not). *)
Theorem scan_dedup_counts (env : etl_env) (raw : list (option string)) :
  List.NoDup (seen_matches (etl_scan env raw)) /\
  deduped_matches (etl_scan env raw) = length (seen_matches (etl_scan env raw)) /\
  (deduped_matches (etl_scan env raw) <= scanned_entries (etl_scan env raw))%nat /\
  scanned_entries (etl_scan env raw) = list_sum (map (log_length env) (top_player_tags raw)).
Proof.
  unfold etl_scan. destruct (players_counts env (top_player_tags raw) (top_player_tags raw) etl_init)
    as (A & B & C & D); [constructor|reflexivity|simpl; lia|].
  split; [done|split; [done|split; [done|]]]. rewrite D. reflexivity.
Qed.

(** After a scan, every card list of [deck_hash_to_cards] is 8 cards in
    slots 1..8 with distinct [(card_id, variant)] pairs (so the
    [deck_cards] rows [main] inserts never conflict) that hash to their
    key; the type of [deck_hash_to_type] is the type [main] resolves for
    those cards (override or classification); both tables have the same
    keys; and [cards_dim] holds non-empty names without surrounding white
    space. *)
Theorem scan_deck_tables (env : etl_env) (raw : list (option string)) :
  deck_tables_ok env (etl_scan env raw).
Proof. apply scan_deck_tables_ok. Qed.

(** Once a deck hash has a type and a card list, processing a further
    battle never changes them: the first sighting of a deck fixes its
    stored type and cards. *)
Theorem process_battle_keeps_stored_deck (env : etl_env) (top : list string) (st : etl_state)
  (b : battle) (dh t : string) (os : list CardObs) :
  dict_get (deck_hash_to_type st) dh = Some t -> dict_get (deck_hash_to_cards st) dh = Some os ->
  dict_get (deck_hash_to_type (process_battle env top st b)) dh = Some t /\
  dict_get (deck_hash_to_cards (process_battle env top st b)) dh = Some os.
Proof. apply process_battle_keeps_deck. Qed.

Lemma process_battle_keeps_stored_deck_witness :
  dict_get (deck_hash_to_type ex_state_one) (deck_hash_of ex_deck_aaa) = Some ARCHETYPE_HYBRID /\
  dict_get (deck_hash_to_cards ex_state_one) (deck_hash_of ex_deck_aaa) = Some ex_deck_aaa /\
  dict_get (deck_hash_to_type (process_battle ex_env ["#AAA"] ex_state_one (swap_sides ex_battle)))
    (deck_hash_of ex_deck_aaa) = Some ARCHETYPE_HYBRID /\
  dict_get (deck_hash_to_cards (process_battle ex_env ["#AAA"] ex_state_one (swap_sides ex_battle)))
    (deck_hash_of ex_deck_aaa) = Some ex_deck_aaa.
Proof.
  assert (Ht : dict_get (deck_hash_to_type ex_state_one) (deck_hash_of ex_deck_aaa) = Some ARCHETYPE_HYBRID)
    by (vm_compute; reflexivity).
  assert (Hc : dict_get (deck_hash_to_cards ex_state_one) (deck_hash_of ex_deck_aaa) = Some ex_deck_aaa)
    by (vm_compute; reflexivity).
  split; [exact Ht|split; [exact Hc|]].
  exact (process_battle_keeps_stored_deck ex_env ["#AAA"] ex_state_one (swap_sides ex_battle) _ _ _ Ht Hc).
Defined.

(** After a scan, for every archetype [t], the [meta_type_deck_ids]
    entries of [t] add up to the [meta_deck_types] entry of [t], and the
    [meta_type_cards] entries of [t] to 8 times it, for uses and wins
    alike. *)
Theorem scan_meta_tables_consistent (env : etl_env) (raw : list (option string)) (t : string) (w : bool) :
  type_deck_total (etl_scan env raw) t w
  = sel w (dict_get_default (meta_deck_types (etl_scan env raw)) t counter0) /\
  type_card_total (etl_scan env raw) t w
  = 8 * sel w (dict_get_default (meta_deck_types (etl_scan env raw)) t counter0).
Proof. apply scan_meta_consistent. Qed.

(* ================================================================== *)
(** ** [classify_deck] and the order of the cards *)

#[local] Instance Zleb_trans : Transitive Zleb_rel.
Proof. intros x y z. unfold Zleb_rel. rewrite !Z.leb_le. lia. Qed.

#[local] Instance Zleb_antisymm : AntiSymm (=) Zleb_rel.
Proof. intros x y. unfold Zleb_rel. rewrite !Z.leb_le. lia. Qed.

Lemma Zleb_total (x y : Z) : (x <=? y)%Z = true \/ (y <=? x)%Z = true.
Proof. rewrite !Z.leb_le. lia. Qed.

Lemma sum_Z_perm (l1 l2 : list Z) : l1 ≡ₚ l2 -> sum_Z l1 = sum_Z l2.
Proof. induction 1; unfold sum_Z in *; simpl; lia. Qed.

Lemma meets_perm (l1 l2 S : list string) : l1 ≡ₚ l2 -> meets l1 S = meets l2 S.
Proof.
  intros Hp. unfold meets. apply Bool.eq_true_iff_eq. rewrite !existsb_exists.
  split; intros (x & Hx & Hs); exists x; split; try done.
  - now apply (Permutation_in _ Hp).
  - now apply (Permutation_in _ (Permutation_sym Hp)).
Qed.

Lemma filter_perm {A} (f : A -> bool) (l1 l2 : list A) :
  l1 ≡ₚ l2 -> List.filter f l1 ≡ₚ List.filter f l2.
Proof.
  induction 1; simpl; try done.
  - destruct (f x); [now constructor|done].
  - destruct (f x), (f y); try constructor; done.
  - by etrans.
Qed.

Lemma count_flag_perm (f : CardMeta -> bool) (m1 m2 : list CardMeta) :
  m1 ≡ₚ m2 -> count_flag f m1 = count_flag f m2.
Proof. intros Hp. unfold count_flag. apply Permutation_length, filter_perm, Hp. Qed.

Lemma precompute_perm (by_name : card_meta_by_name) (l1 l2 : list string) :
  l1 ≡ₚ l2 -> _precompute_deck_values by_name l1 = _precompute_deck_values by_name l2.
Proof.
  intros Hp. unfold _precompute_deck_values.
  assert (Hm : map (_get_card_meta by_name) l1 ≡ₚ map (_get_card_meta by_name) l2)
    by (apply Permutation_map, Hp).
  assert (He : flat_map elixir_list (map (_get_card_meta by_name) l1)
               ≡ₚ flat_map elixir_list (map (_get_card_meta by_name) l2))
    by (apply Permutation_flat_map, Hm).
  assert (Hs : sort_by Z.leb (flat_map elixir_list (map (_get_card_meta by_name) l1))
               = sort_by Z.leb (flat_map elixir_list (map (_get_card_meta by_name) l2))).
  { apply (Sorted_unique Zleb_rel).
    - apply (sort_by_sorted Z.leb Zleb_total).
    - apply (sort_by_sorted Z.leb Zleb_total).
    - rewrite !sort_by_perm. exact He. }
  rewrite (sum_Z_perm _ _ He), Hs, (meets_perm _ _ _ Hp), (meets_perm l1 l2 _SIEGE_MORTAR Hp),
    !(count_flag_perm _ _ _ Hm).
  destruct (flat_map elixir_list (map (_get_card_meta by_name) l1)) eqn:E1,
           (flat_map elixir_list (map (_get_card_meta by_name) l2)) eqn:E2;
    try reflexivity.
  - apply Permutation_nil in He. discriminate.
  - symmetry in He. apply Permutation_nil in He. discriminate.
Qed.

(** [classify_deck] depends only on the multiset of card names: its
    precomputed values, and so its label, are the same for every order of
    the names. *)
Theorem classify_deck_order_invariant (by_name : card_meta_by_name) (l1 l2 : list string) :
  l1 ≡ₚ l2 ->
  _precompute_deck_values by_name l1 = _precompute_deck_values by_name l2 /\
  classify_deck by_name l1 = classify_deck by_name l2.
Proof.
  intros Hp. split; [now apply precompute_perm|].
  unfold classify_deck. destruct l1 as [|x l1], l2 as [|y l2].
  - reflexivity.
  - apply Permutation_nil in Hp. discriminate.
  - symmetry in Hp. apply Permutation_nil in Hp. discriminate.
  - rewrite (precompute_perm by_name _ _ Hp). reflexivity.
Qed.

Lemma classify_deck_order_invariant_witness :
  ["Knight"; "X-Bow"; "Tesla"] ≡ₚ ["X-Bow"; "Tesla"; "Knight"] /\
  _precompute_deck_values ex_meta_by_name ["Knight"; "X-Bow"; "Tesla"]
  = _precompute_deck_values ex_meta_by_name ["X-Bow"; "Tesla"; "Knight"] /\
  classify_deck ex_meta_by_name ["Knight"; "X-Bow"; "Tesla"]
  = classify_deck ex_meta_by_name ["X-Bow"; "Tesla"; "Knight"].
Proof.
  assert (Hp : ["Knight"; "X-Bow"; "Tesla"] ≡ₚ ["X-Bow"; "Tesla"; "Knight"]).
  { change ["X-Bow"; "Tesla"; "Knight"] with (["X-Bow"; "Tesla"] ++ ["Knight"])%list.
    apply Permutation_cons_append. }
  split; [exact Hp|]. exact (classify_deck_order_invariant ex_meta_by_name _ _ Hp).
Defined.

(* ================================================================== *)
(** ** The shape of the hex digests *)

Lemma code_chr (z : Z) : (0 <= z < 256)%Z -> code (chr z) = z.
Proof.
  intros H. unfold code, chr. rewrite N_ascii_embedding; [lia|].
  apply N.ltb_lt. change 256%N with (Z.to_N 256). apply N.ltb_lt, Z2N.inj_lt; lia.
Qed.

Lemma hex_digit_ok (d : Z) : (0 <= d <= 15)%Z -> is_hex_char (SHA1.hex_digit d) = true.
Proof.
  intros H. unfold SHA1.hex_digit, is_hex_char.
  destruct (d <? 10)%Z eqn:E.
  - apply Z.ltb_lt in E. rewrite code_chr by lia.
    replace ((48 <=? 48 + d)%Z && (48 + d <=? 57)%Z) with true; [reflexivity|].
    symmetry. apply andb_true_intro. rewrite !Z.leb_le. lia.
  - apply Z.ltb_ge in E. rewrite code_chr by lia.
    replace ((97 <=? 87 + d)%Z && (87 + d <=? 102)%Z) with true; [apply orb_true_r|].
    symmetry. apply andb_true_intro. rewrite !Z.leb_le. lia.
Qed.

Lemma length_string_of_list_ascii (l : list ascii) : String.length (string_of_list_ascii l) = length l.
Proof. induction l; simpl; congruence. Qed.

Lemma str_length_app (a b : string) : String.length (a ++ b) = (String.length a + String.length b)%nat.
Proof. induction a as [|c a IH]; [reflexivity|]. rewrite str_app_cons. simpl. now rewrite IH. Qed.

Lemma list_ascii_app (a b : string) :
  list_ascii_of_string (a ++ b) = (list_ascii_of_string a ++ list_ascii_of_string b)%list.
Proof. induction a as [|c a IH]; [reflexivity|]. rewrite str_app_cons. simpl. now rewrite IH. Qed.

Lemma hex_word_shape (x : Z) :
  String.length (SHA1.hex_word x) = 8%nat /\
  Forall (fun c => is_hex_char c = true) (list_ascii_of_string (SHA1.hex_word x)).
Proof.
  unfold SHA1.hex_word. rewrite length_string_of_list_ascii, list_ascii_of_string_of_list_ascii.
  split; [rewrite length_map; reflexivity|].
  apply List.Forall_forall. intros c Hc. apply in_map_iff in Hc as (i & <- & _).
  apply hex_digit_ok. change 15%Z with (Z.ones 4). rewrite Z.land_ones by lia.
  change (2 ^ 4)%Z with 16%Z.
  pose proof (Z.mod_pos_bound (Z.shiftr x (4 * Z.of_nat (7 - i))) 16 ltac:(lia)) as Hb. change (Z.ones 4) with 15%Z. lia.
Qed.

Lemma sha1_hex_shape (s : string) : is_hex40 (sha1_hex s).
Proof.
  unfold sha1_hex, SHA1.digest.
  destruct (fold_left SHA1.compress _ SHA1.h_init) as [[[[h0 h1] h2] h3] h4].
  destruct (hex_word_shape h0) as [L0 F0], (hex_word_shape h1) as [L1 F1],
    (hex_word_shape h2) as [L2 F2], (hex_word_shape h3) as [L3 F3], (hex_word_shape h4) as [L4 F4].
  split.
  - rewrite !str_length_app, L0, L1, L2, L3, L4. reflexivity.
  - rewrite !list_ascii_app. repeat apply Forall_app_2; assumption.
Qed.

(** [hashlib.sha1(...).hexdigest()] always has 40 lowercase hexadecimal
    digits, so every deck hash ([deck_hash_from_signature]) and every
    match fingerprint ([match_hash]) does. *)
Theorem hashes_are_hex40 (s : string) (b : battle) :
  is_hex40 (sha1_hex s) /\ is_hex40 (deck_hash_from_signature s) /\ is_hex40 (match_hash b).
Proof.
  split; [apply sha1_hex_shape|split; [apply sha1_hex_shape|apply sha1_hex_shape]].
Qed.

(* ================================================================== *)
(** ** [summarize_deck_types] and the two statistics tables *)

Lemma rows_total_perm (f : type_row -> nat) (l1 l2 : list type_row) :
  l1 ≡ₚ l2 -> rows_total f l1 = rows_total f l2.
Proof. induction 1; unfold rows_total in *; simpl; lia. Qed.

Lemma rows_total_set (f : type_row -> nat) (d : list (string * type_bucket)) (k : string) (v : type_bucket) :
  rows_total f (map to_row (dict_set d k v))
  + match dict_get d k with Some v0 => f (to_row (k, v0)) | None => 0 end
  = rows_total f (map to_row d) + f (to_row (k, v)).
Proof.
  unfold rows_total. induction d as [|[k0 v0] d IH]; simpl in *; [lia|].
  destruct (decide (k = k0)) as [<-|Hk]; simpl in *; lia.
Qed.

Lemma count_result_totals (d : list (string * type_bucket)) (key res : string) (flip : bool) :
  let win := String.eqb res "win" in
  let loss := String.eqb res "loss" in
  rows_total tr_games (map to_row (count_result d key res flip)) = rows_total tr_games (map to_row d) + 1 /\
  rows_total tr_wins (map to_row (count_result d key res flip))
  = rows_total tr_wins (map to_row d) + b2n (if flip then loss else win) /\
  rows_total tr_losses (map to_row (count_result d key res flip))
  = rows_total tr_losses (map to_row d) + b2n (if flip then win else loss) /\
  rows_total tr_draws (map to_row (count_result d key res flip))
  = rows_total tr_draws (map to_row d) + b2n (negb win && negb loss).
Proof.
  intros win loss. unfold count_result, dict_get_default. fold win loss.
  set (b := match dict_get d key with Some v => v | None => type_bucket0 end).
  set (nb := {| tb_games := _; tb_wins := _; tb_losses := _; tb_draws := _ |}).
  pose proof (rows_total_set tr_games d key nb) as G.
  pose proof (rows_total_set tr_wins d key nb) as W.
  pose proof (rows_total_set tr_losses d key nb) as L.
  pose proof (rows_total_set tr_draws d key nb) as D.
  subst b nb. destruct (dict_get d key) as [v0|]; cbn in G, W, L, D |- *; lia.
Qed.

Lemma count_battles_cons (P : normalized_battle -> bool) (nb : normalized_battle) (l : list normalized_battle) :
  count_battles P (nb :: l) = b2n (P nb) + count_battles P l.
Proof. unfold count_battles. simpl. destruct (P nb); reflexivity. Qed.

Lemma summarize_fold_totals (by_name : card_meta_by_name) (l : list normalized_battle)
  (my opp : list (string * type_bucket)) :
  let r := fold_left (summarize_step by_name) l (my, opp) in
  rows_total tr_games (map to_row r.1)
  = rows_total tr_games (map to_row my) + count_battles (fun nb => has8 (nb_my_cards nb)) l /\
  rows_total tr_wins (map to_row r.1)
  = rows_total tr_wins (map to_row my) + count_battles (fun nb => has8 (nb_my_cards nb) && is_res "win" nb) l /\
  rows_total tr_losses (map to_row r.1)
  = rows_total tr_losses (map to_row my) + count_battles (fun nb => has8 (nb_my_cards nb) && is_res "loss" nb) l /\
  rows_total tr_draws (map to_row r.1)
  = rows_total tr_draws (map to_row my) + count_battles (fun nb => has8 (nb_my_cards nb) && is_other_res nb) l /\
  rows_total tr_games (map to_row r.2)
  = rows_total tr_games (map to_row opp) + count_battles (fun nb => has8 (nb_opp_cards nb)) l /\
  rows_total tr_wins (map to_row r.2)
  = rows_total tr_wins (map to_row opp) + count_battles (fun nb => has8 (nb_opp_cards nb) && is_res "loss" nb) l /\
  rows_total tr_losses (map to_row r.2)
  = rows_total tr_losses (map to_row opp) + count_battles (fun nb => has8 (nb_opp_cards nb) && is_res "win" nb) l /\
  rows_total tr_draws (map to_row r.2)
  = rows_total tr_draws (map to_row opp) + count_battles (fun nb => has8 (nb_opp_cards nb) && is_other_res nb) l.
Proof.
  revert my opp. induction l as [|nb l IH]; intros my opp; cbn zeta; cbn [fold_left].
  { unfold count_battles; simpl. lia. }
  set (my' := match deck_type_of by_name (nb_my_cards nb) with
              | Some t => count_result my t (nb_result nb) false | None => my end).
  set (opp' := match deck_type_of by_name (nb_opp_cards nb) with
               | Some t => count_result opp t (nb_result nb) true | None => opp end).
  assert (Es : summarize_step by_name (my, opp) nb = (my', opp')) by reflexivity.
  rewrite Es.
  destruct (IH my' opp') as (A1 & A2 & A3 & A4 & B1 & B2 & B3 & B4).
  rewrite A1, A2, A3, A4, B1, B2, B3, B4, !count_battles_cons.
  unfold is_other_res, is_res, has8.
  assert (Hwl : String.eqb (nb_result nb) "win" = true -> String.eqb (nb_result nb) "loss" = false).
  { intros Hw. apply String.eqb_eq in Hw. rewrite Hw. reflexivity. }
  subst my' opp'. unfold deck_type_of.
  destruct (length (nb_my_cards nb) =? 8)%nat, (length (nb_opp_cards nb) =? 8)%nat;
  [pose proof (count_result_totals my (classify_deck by_name (nb_my_cards nb)) (nb_result nb) false) as HM;
   pose proof (count_result_totals opp (classify_deck by_name (nb_opp_cards nb)) (nb_result nb) true) as HO;
   cbv zeta in HM, HO; destruct HM as (M1 & M2 & M3 & M4); destruct HO as (O1 & O2 & O3 & O4);
   rewrite M1, M2, M3, M4, O1, O2, O3, O4
  |pose proof (count_result_totals my (classify_deck by_name (nb_my_cards nb)) (nb_result nb) false) as HM;
   cbv zeta in HM; destruct HM as (M1 & M2 & M3 & M4); rewrite M1, M2, M3, M4
  |pose proof (count_result_totals opp (classify_deck by_name (nb_opp_cards nb)) (nb_result nb) true) as HO;
   cbv zeta in HO; destruct HO as (O1 & O2 & O3 & O4); rewrite O1, O2, O3, O4
  |];
  (destruct (String.eqb (nb_result nb) "win") eqn:Ew;
   [rewrite (Hwl eq_refl)|destruct (String.eqb (nb_result nb) "loss")]); simpl; lia.
Qed.

Lemma count_result_ok (d : list (string * type_bucket)) (key res : string) (flip : bool) :
  Forall (fun e => bucket_ok e.2) d /\ List.NoDup (map fst d) ->
  Forall (fun e => bucket_ok e.2) (count_result d key res flip) /\
  List.NoDup (map fst (count_result d key res flip)).
Proof.
  intros [Hf Hn]. unfold count_result. split; [|now apply dict_set_NoDup].
  apply dict_set_Forall; [exact Hf|].
  assert (Hb : tb_games (dict_get_default d key type_bucket0)
               = tb_wins (dict_get_default d key type_bucket0)
                 + tb_losses (dict_get_default d key type_bucket0)
                 + tb_draws (dict_get_default d key type_bucket0)).
  { unfold dict_get_default. destruct (dict_get d key) as [v|] eqn:E; [|reflexivity].
    apply dict_get_In in E. rewrite List.Forall_forall in Hf. apply (Hf _ E). }
  unfold bucket_ok; cbn [snd tb_games tb_wins tb_losses tb_draws].
  split; [|lia].
  destruct (String.eqb res "win") eqn:Ew.
  - apply String.eqb_eq in Ew. subst res. destruct flip; simpl; lia.
  - destruct (String.eqb res "loss"), flip; simpl; lia.
Qed.

Lemma summarize_fold_ok (by_name : card_meta_by_name) (l : list normalized_battle)
  (my opp : list (string * type_bucket)) :
  Forall (fun e => bucket_ok e.2) my /\ List.NoDup (map fst my) ->
  Forall (fun e => bucket_ok e.2) opp /\ List.NoDup (map fst opp) ->
  let r := fold_left (summarize_step by_name) l (my, opp) in
  (Forall (fun e => bucket_ok e.2) r.1 /\ List.NoDup (map fst r.1)) /\
  (Forall (fun e => bucket_ok e.2) r.2 /\ List.NoDup (map fst r.2)).
Proof.
  revert my opp. induction l as [|nb l IH]; intros my opp Hm Ho; cbn zeta; cbn [fold_left]; [done|].
  apply IH.
  - destruct (deck_type_of by_name (nb_my_cards nb)); [now apply count_result_ok|done].
  - destruct (deck_type_of by_name (nb_opp_cards nb)); [now apply count_result_ok|done].
Qed.

Lemma win_rate_bounds (w g : nat) : (w <= g)%nat -> (0 <= win_rate w g /\ win_rate w g <= 1)%Q.
Proof.
  intros H. unfold win_rate. destruct (g =? 0)%nat eqn:E.
  { split; discriminate. }
  apply Nat.eqb_neq in E.
  assert (Hg : (0 < inject_Z (Z.of_nat g))%Q) by (unfold Qlt; simpl; lia).
  split.
  - apply Qle_shift_div_l; [exact Hg|]. rewrite Qmult_0_l. unfold Qle; simpl; lia.
  - apply Qle_shift_div_r; [exact Hg|]. rewrite Qmult_1_l. unfold Qle; simpl; lia.
Qed.

Lemma rows_of_ok (d : list (string * type_bucket)) (le : type_row -> type_row -> bool) :
  Forall (fun e => bucket_ok e.2) d /\ List.NoDup (map fst d) ->
  (forall r, In r (sort_by le (map to_row d)) -> row_ok r) /\
  List.NoDup (map tr_type (sort_by le (map to_row d))).
Proof.
  intros [Hf Hn]. split.
  - intros r Hr. apply (Permutation_in _ (sort_by_perm le (map to_row d))) in Hr.
    apply in_map_iff in Hr as ([t b] & <- & Hin). rewrite List.Forall_forall in Hf.
    destruct (Hf _ Hin) as [H1 H2]. cbn in H1, H2. unfold row_ok; cbn.
    split; [done|split; [done|]]. apply win_rate_bounds. lia.
  - apply (Permutation_NoDup (l := map tr_type (map to_row d))).
    + apply Permutation_map. symmetry. apply sort_by_perm.
    + rewrite map_map. replace (map (fun x => tr_type (to_row x)) d) with (map fst d); [done|].
      apply map_ext. intros [t b]. reflexivity.
Qed.

Lemma rate_games_ge_total (x y : type_row) : rate_games_ge x y = true \/ rate_games_ge y x = true.
Proof.
  unfold rate_games_ge.
  destruct (Qle_bool (tr_win_rate x) (tr_win_rate y)) eqn:Exy; [|left; reflexivity].
  destruct (Qle_bool (tr_win_rate y) (tr_win_rate x)) eqn:Eyx; [|right; reflexivity].
  apply Qle_bool_iff in Exy, Eyx.
  assert (Hq : Qeq_bool (tr_win_rate x) (tr_win_rate y) = true /\ Qeq_bool (tr_win_rate y) (tr_win_rate x) = true).
  { split; apply Qeq_bool_iff; apply Qle_antisym; assumption. }
  destruct Hq as [-> ->]. simpl. rewrite !Nat.leb_le. lia.
Qed.

Lemma sorted_weaken {A} (R1 R2 : A -> A -> Prop) (l : list A) :
  (forall x y, R1 x y -> R2 x y) -> Sorted R1 l -> Sorted R2 l.
Proof.
  intros H. induction 1 as [|x l Hl IH Hd]; constructor; [done|].
  destruct Hd; constructor. now apply H.
Qed.

Lemma games_ge_total (x y : type_row) : games_ge x y = true \/ games_ge y x = true.
Proof. unfold games_ge. rewrite !Nat.leb_le. lia. Qed.

(** Each of the two lists of [summarize_deck_types] has one row per deck
    type (no type twice), and in every row [games = wins + losses + draws],
    [games >= 1] and [0 <= win_rate <= 1]. *)
Theorem summarize_deck_types_rows (by_name : card_meta_by_name) (battles : list normalized_battle) :
  (forall r, In r (summarize_deck_types by_name battles).1 -> row_ok r) /\
  (forall r, In r (summarize_deck_types by_name battles).2 -> row_ok r) /\
  List.NoDup (map tr_type (summarize_deck_types by_name battles).1) /\
  List.NoDup (map tr_type (summarize_deck_types by_name battles).2).
Proof.
  unfold summarize_deck_types.
  pose proof (summarize_fold_ok by_name battles [] [] ltac:(split; constructor) ltac:(split; constructor))
    as [Hm Ho].
  destruct (fold_left (summarize_step by_name) battles ([], [])) as [my opp]. cbn [fst snd] in *.
  unfold _deck_type_stats_to_list.
  destruct (rows_of_ok my rate_games_ge Hm) as [A B], (rows_of_ok opp rate_games_ge Ho) as [C D].
  auto.
Qed.

(** Totals of [summarize_deck_types]: over the rows of the player's side,
    games count the battles whose [my_cards] has 8 cards, and wins, losses
    and draws those of them with result ["win"], ["loss"] and anything
    else; over the opponent's side the same with [opp_cards], where a
    ["win"] counts as a loss and a ["loss"] as a win. *)
Theorem summarize_deck_types_totals (by_name : card_meta_by_name) (battles : list normalized_battle) :
  let '(mine, theirs) := summarize_deck_types by_name battles in
  rows_total tr_games mine = count_battles (fun nb => has8 (nb_my_cards nb)) battles /\
  rows_total tr_wins mine = count_battles (fun nb => has8 (nb_my_cards nb) && is_res "win" nb) battles /\
  rows_total tr_losses mine = count_battles (fun nb => has8 (nb_my_cards nb) && is_res "loss" nb) battles /\
  rows_total tr_draws mine = count_battles (fun nb => has8 (nb_my_cards nb) && is_other_res nb) battles /\
  rows_total tr_games theirs = count_battles (fun nb => has8 (nb_opp_cards nb)) battles /\
  rows_total tr_wins theirs = count_battles (fun nb => has8 (nb_opp_cards nb) && is_res "loss" nb) battles /\
  rows_total tr_losses theirs = count_battles (fun nb => has8 (nb_opp_cards nb) && is_res "win" nb) battles /\
  rows_total tr_draws theirs = count_battles (fun nb => has8 (nb_opp_cards nb) && is_other_res nb) battles.
Proof.
  unfold summarize_deck_types.
  pose proof (summarize_fold_totals by_name battles [] []) as H. cbv zeta in H.
  destruct (fold_left (summarize_step by_name) battles ([], [])) as [my opp]. cbn [fst snd] in H.
  unfold _deck_type_stats_to_list. rewrite !(rows_total_perm _ (sort_by _ _) _ (sort_by_perm _ _)).
  simpl in H. exact H.
Qed.

(** [_deck_type_stats_to_list] returns one row per entry of the statistics,
    ordered by win rate and then games, both descending; rows with the same
    key keep the order of the entries: for every row [r], the rows with the
    key of [r] appear in the output in their input order. *)
Theorem deck_type_stats_to_list_sorted (stats : list (string * type_bucket)) :
  _deck_type_stats_to_list stats ≡ₚ map to_row stats /\
  Sorted (fun x y => rate_games_ge x y = true) (_deck_type_stats_to_list stats) /\
  (forall r, List.filter (same_rate_games r) (_deck_type_stats_to_list stats)
             = List.filter (same_rate_games r) (map to_row stats)).
Proof.
  split; [apply sort_by_perm|]. split.
  - apply (sort_by_sorted rate_games_ge rate_games_ge_total).
  - intros r. apply sort_by_filter. exact (same_rate_games_ge r).
Qed.

(** [_finalize_stats] returns one row per entry, ordered by games
    descending. *)
Theorem finalize_stats_sorted (raw : list (string * type_bucket)) :
  _finalize_stats raw ≡ₚ map to_row raw /\
  Sorted (fun x y => (tr_games y <= tr_games x)%nat) (_finalize_stats raw).
Proof.
  split; [apply sort_by_perm|].
  apply (sorted_weaken (fun x y => games_ge x y = true)); [|apply (sort_by_sorted games_ge games_ge_total)].
  intros x y. unfold games_ge. apply Nat.leb_le.
Qed.

(** [_finalize_stats] is stable: for every row [r], the rows with as many
    games as [r] appear in the output in the order of their entries. *)
Theorem finalize_stats_stable (raw : list (string * type_bucket)) (r : type_row) :
  List.filter (fun x => (tr_games x =? tr_games r)%nat) (_finalize_stats raw)
  = List.filter (fun x => (tr_games x =? tr_games r)%nat) (map to_row raw).
Proof.
  apply sort_by_filter. intros x y Hx Hy. unfold games_ge.
  apply Nat.eqb_eq in Hx, Hy. apply Nat.leb_le. lia.
Qed.
